(** * The bower registry gateway (registry.go): dispatch rules and package resolver

    A shallow embedding of [src/registry.go].  [main] registers three request
    handlers on a goproxy server, in this order: the redirect/deprecation
    handler (the anonymous function of lines 103-122, here [redirectHandler]),
    [listPackages] under the condition [pathIs "/packages"], and [getPackage]
    under the condition [urlHasPrefix "/packages/"].

    The modules below are named after the Go packages the program calls and
    hold the part of each that the program uses.  Go strings are byte strings
    and are modelled by [string]; integers are [Z]; an [http.Header] is a
    finite map from header names to lists of values.  The handlers talk to
    three collaborators, the clock, the pgx pool and the memcached connection;
    their calls are recorded, in order, in a trace of [Event]s, and the
    answers of the store and the cache come from a [World].  A handler
    returns its result after the events of its trace. *)

From Stdlib Require Import ZArith String Ascii List Bool Lia.
From stdpp Require Import base option list strings gmap.

Local Open Scope string_scope.
Local Open Scope list_scope.
Local Open Scope Z_scope.

(** ** Go string literals *)

(** The double quote, byte 34. *)
Definition dquote : ascii := ascii_of_nat 34.

(** [lit s] is the byte string written [s] with every apostrophe standing for
    a double quote; it is used for the Go literals that contain quotes. *)
Fixpoint lit (s : string) : string :=
  match s with
  | EmptyString => EmptyString
  | String c s' =>
      String (if Ascii.eqb c "'"%char then dquote else c) (lit s')
  end.

(** ** package strings *)

Module strings.

(** [strings.HasPrefix(s, prefix)]. *)
Definition HasPrefix (s prefix : string) : bool := String.prefix prefix s.

(** [strings.Split(s, sep)] for a separator of one byte [sep]: the substrings
    of [s] between the separators, in order; one more than there are
    separators, so the result is never empty (the split of the empty string
    is the list of the empty string). *)
Fixpoint Split (s : string) (sep : ascii) : list string :=
  match s with
  | EmptyString => [EmptyString]
  | String c s' =>
      if Ascii.eqb c sep then EmptyString :: Split s' sep
      else match Split s' sep with
           | [] => [String c EmptyString]
           | x :: xs => String c x :: xs
           end
  end.

End strings.

(** ** packages net/url and net/http *)

Module url.

(** The two fields of [url.URL] the handlers read. *)
Record URL := mkURL {
  Path : string;
  RawQuery : string
}.

End url.

Module http.

(** The fields of [http.Request] the conditions and handlers read. *)
Record Request := mkRequest {
  Method : string;
  Host : string;
  URL : url.URL
}.

Definition MethodGet : string := "GET".
Definition StatusOK : Z := 200.
Definition StatusPermanentRedirect : Z := 308.
Definition StatusNotFound : Z := 404.
Definition StatusInternalServerError : Z := 500.

(** An [http.Header] maps a header name to the list of its values; it is a
    [gmap string (list string)].  The names used by the program are already
    in canonical form. *)
Definition Header_Add (h : gmap string (list string)) (key value : string)
    : gmap string (list string) :=
  <[key := default [] (h !! key) ++ [value]]> h.

Definition Header_Set (h : gmap string (list string)) (key value : string)
    : gmap string (list string) :=
  <[key := [value]]> h.

Definition Header_Get (h : gmap string (list string)) (key : string) : string :=
  match h !! key with
  | Some (v :: _) => v
  | _ => EmptyString
  end.

(** The fields of [http.Response] that [goproxy.NewResponse] and the handlers
    set, but for [Status], [Request] and [TransferEncoding]. *)
Record Response := mkResponse {
  StatusCode : Z;
  Header : gmap string (list string);
  ContentLength : Z;
  Body : string
}.

End http.

(** [response.Header.Set(...)] and [response.Header.Add(...)] change the
    header map of the response in place: the response with the new map. *)
Definition withHeader (resp : http.Response) (h : gmap string (list string))
    : http.Response :=
  {| http.StatusCode := http.StatusCode resp;
     http.Header := h;
     http.ContentLength := http.ContentLength resp;
     http.Body := http.Body resp |}.

(** ** The collaborators: clock, store, cache *)

Module pgx.

Inductive Error :=
  | ErrNoRows
  | Failure (detail : string).

(** Result of [pool.QueryRow(stmt, arg).Scan(&name, &url)]: the two columns,
    or the error. *)
Inductive ScanResult :=
  | Scanned (name url : string)
  | ScanErr (err : Error).

End pgx.

Module mc.

Inductive Error :=
  | ErrNotFound
  | Failure (detail : string).

(** Result of [cn.Get(key)]: the value, or the error (the cas and flags
    results are dropped by the program).  A missing key is [ErrNotFound]. *)
Inductive GetResult :=
  | Val (val : string)
  | Err (err : Error).

End mc.

(** What the store and the cache answer. *)
Record World := mkWorld {
  store : string → string → pgx.ScanResult;
  cache : string → mc.GetResult
}.

Inductive Event :=
  | EvSleep (d : Z)
  | EvQueryRow (stmt arg : string)
  | EvGet (key : string).

(** Computations that read the world and log their calls. *)
Definition M (A : Type) : Type := World → list Event * A.

#[global] Instance M_ret : MRet M := fun A a _ => ([], a).

#[global] Instance M_bind : MBind M := fun A B k m w =>
  let '(t1, a) := m w in
  let '(t2, b) := k a w in
  (t1 ++ t2, b).

Module time.

(** [time.Second], a [time.Duration] in nanoseconds. *)
Definition Second : Z := 1000000000.

Definition Sleep (d : Z) : M unit := fun _ => ([EvSleep d], tt).

End time.

(** The global [pool]. *)
Module pool.

Definition QueryRow_Scan (stmt arg : string) : M pgx.ScanResult :=
  fun w => ([EvQueryRow stmt arg], store w stmt arg).

End pool.

(** The global [cn]. *)
Module cn.

Definition Get (key : string) : M mc.GetResult :=
  fun w => ([EvGet key], cache w key).

End cn.

(** ** package unicode/utf8 *)

Module utf8.

Definition byte (c : ascii) : Z := Z.of_N (N_of_ascii c).

Definition RuneError : Z := 65533.

(** The tables [first] and [acceptRanges]. *)
Definition first (s0 : Z) : Z :=
  if s0 <? 128 then 240            (* as: ASCII *)
  else if s0 <? 194 then 241       (* xx: invalid *)
  else if s0 <? 224 then 2         (* s1 *)
  else if s0 =? 224 then 19        (* s2 *)
  else if s0 <? 237 then 3         (* s3 *)
  else if s0 =? 237 then 35        (* s4 *)
  else if s0 <? 240 then 3         (* s3 *)
  else if s0 =? 240 then 52        (* s5 *)
  else if s0 <? 244 then 4         (* s6 *)
  else if s0 =? 244 then 68        (* s7 *)
  else 241.                        (* xx *)

Definition acceptRanges (i : Z) : Z * Z :=
  if i =? 0 then (128, 191)
  else if i =? 1 then (160, 191)
  else if i =? 2 then (128, 159)
  else if i =? 3 then (144, 191)
  else if i =? 4 then (128, 143)
  else (0, 0).

(** [utf8.DecodeRuneInString(s)]: the first rune of [s] and its width in
    bytes; [(RuneError, 1)] when [s] does not start with a valid encoding. *)
Definition DecodeRuneInString (s : string) : Z * nat :=
  match s with
  | EmptyString => (RuneError, 0%nat)
  | String c0 t0 =>
      let s0 := byte c0 in
      let x := first s0 in
      if 240 <=? x then ((if x =? 241 then RuneError else s0), 1%nat)
      else
        let sz := Z.land x 7 in
        let accept := acceptRanges (Z.shiftr x 4) in
        if Z.of_nat (String.length s) <? sz then (RuneError, 1%nat)
        else match t0 with
        | EmptyString => (RuneError, 1%nat)
        | String c1 t1 =>
            let s1 := byte c1 in
            if (s1 <? fst accept) || (snd accept <? s1) then (RuneError, 1%nat)
            else if sz <=? 2 then
              (Z.lor (Z.shiftl (Z.land s0 31) 6) (Z.land s1 63), 2%nat)
            else match t1 with
            | EmptyString => (RuneError, 1%nat)
            | String c2 t2 =>
                let s2 := byte c2 in
                if (s2 <? 128) || (191 <? s2) then (RuneError, 1%nat)
                else if sz <=? 3 then
                  (Z.lor (Z.lor (Z.shiftl (Z.land s0 15) 12)
                                (Z.shiftl (Z.land s1 63) 6))
                         (Z.land s2 63), 3%nat)
                else match t2 with
                | EmptyString => (RuneError, 1%nat)
                | String c3 _ =>
                    let s3 := byte c3 in
                    if (s3 <? 128) || (191 <? s3) then (RuneError, 1%nat)
                    else
                      (Z.lor (Z.lor (Z.lor (Z.shiftl (Z.land s0 7) 18)
                                           (Z.shiftl (Z.land s1 63) 12))
                                    (Z.shiftl (Z.land s2 63) 6))
                             (Z.land s3 63), 4%nat)
                end
            end
        end
  end.

End utf8.

(** ** registry.go: the data model *)

(** [type Package struct], with the JSON tags "name" and "url". *)
Record Package := mkPackage {
  Name : string;
  URL : string
}.

(** ** package encoding/json, as far as [json.Marshal(Package{...})] goes *)

Module json.

Definition hex : string := "0123456789abcdef".

Definition hexDigit (n : Z) : string :=
  match String.get (Z.to_nat n) hex with
  | Some c => String c EmptyString
  | None => EmptyString
  end.

(** [htmlSafeSet]: the ASCII bytes written as they are. *)
Definition htmlSafe (b : Z) : bool :=
  (32 <=? b) && (b <? 128) &&
  negb ((b =? 34) || (b =? 38) || (b =? 60) || (b =? 62) || (b =? 92)).

(** What the encoder writes for an ASCII byte (the [switch] of
    [appendString], Go 1.22 and later, with HTML escaping on as
    [json.Marshal] has it). *)
Definition escapeByte (c : ascii) : string :=
  let b := utf8.byte c in
  if htmlSafe b then String c EmptyString
  else if (b =? 92) || (b =? 34) then String "\"%char (String c EmptyString)
  else if b =? 8 then "\b"
  else if b =? 12 then "\f"
  else if b =? 10 then "\n"
  else if b =? 13 then "\r"
  else if b =? 9 then "\t"
  else "\u00" +:+ hexDigit (Z.shiftr b 4) +:+ hexDigit (Z.land b 15).

(** The loop of [appendString] between the two quotes.  [skip] counts the
    bytes of the current rune that are still to be stepped over, the rune
    being written when its first byte is met. *)
Fixpoint encodeBytes (src : string) (skip : nat) : string :=
  match src with
  | EmptyString => EmptyString
  | String c rest =>
      match skip with
      | S k => encodeBytes rest k
      | O =>
          if utf8.byte c <? 128 then escapeByte c +:+ encodeBytes rest 0
          else
            let '(r, size) := utf8.DecodeRuneInString src in
            if (r =? utf8.RuneError) && Nat.eqb size 1 then
              "\ufffd" +:+ encodeBytes rest 0
            else if (r =? 8232) || (r =? 8233) then
              "\u202" +:+ hexDigit (Z.land r 15) +:+ encodeBytes rest (size - 1)
            else String.substring 0 size src +:+ encodeBytes rest (size - 1)
      end
  end.

(** A Go string as a JSON string. *)
Definition appendString (src : string) : string :=
  String dquote (encodeBytes src 0) +:+ String dquote EmptyString.

Inductive MarshalResult :=
  | Marshalled (data : string)
  | MarshalErr (detail : string).

(** [json.Marshal] at type [Package]: the two fields in declaration order
    under their tags.  It has no failing case at this type. *)
Definition Marshal (p : Package) : MarshalResult :=
  Marshalled (lit "{'name':" +:+ appendString (Name p) +:+
              lit ",'url':" +:+ appendString (URL p) +:+ "}").

End json.

(** ** package goproxy: conditions, handlers and the request filter

    goproxy is a library the program imports.  What is modelled of it is the
    registration of request handlers and the loop that runs them, which the
    specification describes in the same way (section 4.2, and section 7 for a
    handler that gives no response): the handlers are tried in registration
    order, the first response ends the dispatch, and without a response the
    request is forwarded. *)

Module goproxy.

(** [goproxy.ReqConditionFunc] (the proxy context is not used by the
    program's conditions). *)
Definition ReqCondition := http.Request → bool.

(** [goproxy.FuncReqHandler]: the request to carry on with and, when the
    handler answers itself, the response ([None] is Go's [nil]). *)
Definition ReqHandler := http.Request → M (http.Request * option http.Response).

(** The part of [goproxy.ProxyHttpServer] the registrations build. *)
Record ProxyHttpServer := mkProxy {
  reqHandlers : list ReqHandler
}.

Definition NewProxyHttpServer : ProxyHttpServer := {| reqHandlers := [] |}.

(** [goproxy.NewResponse(r, contentType, status, body)]. *)
Definition NewResponse (r : http.Request) (contentType : string) (status : Z)
    (body : string) : http.Response :=
  {| http.StatusCode := status;
     http.Header := http.Header_Add ∅ "Content-Type" contentType;
     http.ContentLength := Z.of_nat (String.length body);
     http.Body := body |}.

(** The handler that [OnRequest(conds...).DoFunc(f)] builds: it runs [f]
    when every condition holds and gives [(r, nil)] otherwise. *)
Definition DoFunc (conds : list ReqCondition) (f : ReqHandler) : ReqHandler :=
  fun r => if forallb (fun cond => cond r) conds then f r else mret (r, None).

(** [proxy.OnRequest(conds...).DoFunc(f)] appends that handler to
    [proxy.reqHandlers]. *)
Definition OnRequest_DoFunc (proxy : ProxyHttpServer) (conds : list ReqCondition)
    (f : ReqHandler) : ProxyHttpServer :=
  {| reqHandlers := reqHandlers proxy ++ [DoFunc conds f] |}.

(** The loop of [proxy.filterRequest]: the handlers in registration order, up
    to the first that returns a response. *)
Fixpoint filterHandlers (hs : list ReqHandler) (r : http.Request)
    : M (http.Request * option http.Response) :=
  match hs with
  | [] => mret (r, None)
  | h :: hs' =>
      '(req, resp) ← h r;
      match resp with
      | Some _ => mret (req, resp)
      | None => filterHandlers hs' req
      end
  end.

(** [proxy.filterRequest(r, ctx)].  With [None] the proxy goes on to send the
    request to its target, which [nonProxy] has set to the node application
    on localhost:3001. *)
Definition filterRequest (proxy : ProxyHttpServer) (r : http.Request)
    : M (http.Request * option http.Response) :=
  filterHandlers (reqHandlers proxy) r.

End goproxy.

(** ** registry.go: conditions and handlers *)

Definition urlHasPrefix (prefix : string) : goproxy.ReqCondition :=
  fun req =>
    let isGET := String.eqb (http.Method req) http.MethodGet in
    let hasPrefix := strings.HasPrefix (url.Path (http.URL req)) prefix in
    let isSearch := strings.HasPrefix (url.Path (http.URL req)) "/packages/search/" in
    isGET && hasPrefix && negb isSearch.

Definition pathIs (path : string) : goproxy.ReqCondition :=
  fun req =>
    String.eqb (http.Method req) http.MethodGet
    && String.eqb (url.Path (http.URL req)) path.

(** The body of the deprecation notice (line 108). *)
Definition deprecationBody : string :=
  lit "[{'name':'deprecated','url':'This bower version is deprecated. Please update it: npm update -g bower'}]".

(** The handler registered first, without conditions (main, lines 103-122). *)
Definition redirectHandler : goproxy.ReqHandler :=
  fun r =>
    if String.eqb (http.Method r) "GET"
       && negb (String.eqb (http.Host r) "registry.bower.io")
       && negb (String.eqb (http.Host r) "components.bower.io")
    then
      if strings.HasPrefix (url.Path (http.URL r)) "/packages/search/" then
        let response :=
          goproxy.NewResponse r "application/json" http.StatusOK deprecationBody in
        mret (r, Some response)
      else
        _ ← time.Sleep (10 * time.Second);
        let response :=
          goproxy.NewResponse r "application/json" http.StatusPermanentRedirect
            EmptyString in
        let target := "https://registry.bower.io" +:+ url.Path (http.URL r) in
        let target :=
          if (0 <? String.length (url.RawQuery (http.URL r)))%nat
          then target +:+ "?" +:+ url.RawQuery (http.URL r)
          else target in
        let response :=
          withHeader response
            (http.Header_Set (http.Header response) "Location" target) in
        mret (r, Some response)
    else mret (r, None).

(** [elements[len(elements)-1]] in [getPackage]; the index is always in
    range, see [packageName_is_last_segment]. *)
Definition packageName (r : http.Request) : string :=
  let elements := strings.Split (url.Path (http.URL r)) "/" in
  default EmptyString (elements !! (length elements - 1)%nat).

(** [getPackage], with the marshaller as an argument: [json.Marshal] cannot
    fail on a [Package], so the branch for its error is reached only with
    another marshaller. *)
Definition getPackageWith (marshal : Package → json.MarshalResult)
    : goproxy.ReqHandler :=
  fun r =>
    let packageName := packageName r in
    res ← pool.QueryRow_Scan "getPackage" packageName;
    match res with
    | pgx.ScanErr err =>
        match err with
        | pgx.ErrNoRows =>
            mret (r, Some (goproxy.NewResponse r "text/html" http.StatusNotFound
                             "Package not found"))
        | _ =>
            mret (r, Some (goproxy.NewResponse r "text/html"
                             http.StatusInternalServerError "Internal server error"))
        end
    | pgx.Scanned name url =>
        match marshal {| Name := name; URL := url |} with
        | json.MarshalErr _ =>
            mret (r, Some (goproxy.NewResponse r "text/html"
                             http.StatusInternalServerError "Internal server error"))
        | json.Marshalled data =>
            let response :=
              goproxy.NewResponse r "application/json" http.StatusOK data in
            let response :=
              withHeader response
                (http.Header_Add (http.Header response) "Cache-Control"
                   "public, max-age=604800") in
            mret (r, Some response)
        end
    end.

Definition getPackage : goproxy.ReqHandler := getPackageWith json.Marshal.

Definition listPackages : goproxy.ReqHandler :=
  fun r =>
    res ← cn.Get "packages";
    match res with
    | mc.Err _ => mret (r, None)
    | mc.Val val =>
        let response := goproxy.NewResponse r "application/json" http.StatusOK val in
        let response :=
          withHeader response
            (http.Header_Add (http.Header response) "Cache-Control"
               "public, max-age=604800") in
        mret (r, Some response)
    end.

(** The global [proxy] after the three registrations of [main]. *)
Definition proxy : goproxy.ProxyHttpServer :=
  let proxy := goproxy.NewProxyHttpServer in
  let proxy := goproxy.OnRequest_DoFunc proxy [] redirectHandler in
  let proxy := goproxy.OnRequest_DoFunc proxy [pathIs "/packages"] listPackages in
  let proxy := goproxy.OnRequest_DoFunc proxy [urlHasPrefix "/packages/"] getPackage in
  proxy.

(** What the proxy does with a request before it forwards it: the registered
    handlers through [filterRequest]. *)
Definition serve (r : http.Request) : M (http.Request * option http.Response) :=
  goproxy.filterRequest proxy r.

(** ** Worlds *)

(** A store over a [packages] table: the prepared statement [getPackage],
    [SELECT name, url FROM packages WHERE name = $1], scans the first row
    with the given name. *)
Fixpoint selectByName (rows : list (string * string)) (name : string)
    : pgx.ScanResult :=
  match rows with
  | [] => pgx.ScanErr pgx.ErrNoRows
  | (n, u) :: rows' =>
      if String.eqb n name then pgx.Scanned n u else selectByName rows' name
  end.

Definition tableWorld (rows : list (string * string)) (entries : gmap string string)
    : World :=
  {| store := fun stmt arg =>
       if String.eqb stmt "getPackage" then selectByName rows arg
       else pgx.ScanErr (pgx.Failure "prepared statement does not exist");
     cache := fun key =>
       match entries !! key with
       | Some val => mc.Val val
       | None => mc.Err mc.ErrNotFound
       end |}.

(** Two worlds for the examples: a store with one package and a filled
    cache; a store and a cache that are down. *)
Definition exampleWorld : World :=
  tableWorld [("jquery", "git://github.com/jquery/jquery.git")]
             {["packages" := "[]"]}.

Definition brokenWorld : World :=
  {| store := fun _ _ => pgx.ScanErr (pgx.Failure "connection refused");
     cache := fun _ => mc.Err (mc.Failure "connection refused") |}.

(** A request with the given method, Host header, path and raw query. *)
Definition request (method host path query : string) : http.Request :=
  {| http.Method := method;
     http.Host := host;
     http.URL := {| url.Path := path; url.RawQuery := query |} |}.

(** ** Vocabulary of the statements *)

Definition StartsWith (s p : string) : Prop := ∃ rest, s = p +:+ rest.

Definition EndsWith (s p : string) : Prop := ∃ front, s = front +:+ p.

Definition migratedHost (h : string) : Prop :=
  h = "registry.bower.io" ∨ h = "components.bower.io".

(** [hasByte c s]: the byte [c] occurs in [s]. *)
Fixpoint hasByte (c : ascii) (s : string) : bool :=
  match s with
  | EmptyString => false
  | String d s' => Ascii.eqb d c || hasByte c s'
  end.


(** The trace and the response of a run, for reading the statements. *)
Definition traceOf {A} (x : list Event * A) : list Event := fst x.

Definition responseOf (x : list Event * (http.Request * option http.Response))
  : option http.Response := snd (snd x).

(** The last element of a list of strings, as [packageName] takes it. *)
Definition lastOf (l : list string) : string :=
  default EmptyString (l !! (length l - 1)%nat).

(** The handlers registered after the redirect handler. *)
Definition laterRules : list goproxy.ReqHandler :=
  drop 1 (goproxy.reqHandlers proxy).

(** The redirect target built by the handler. *)
Definition redirectTarget (r : http.Request) : string :=
  "https://registry.bower.io" +:+ url.Path (http.URL r) +:+
  match url.RawQuery (http.URL r) with
  | EmptyString => EmptyString
  | q => "?" +:+ q
  end.

(** The url of the synthetic record of the deprecation notice. *)
Definition deprecationMessage : string :=
  "This bower version is deprecated. Please update it: npm update -g bower".

(** C9 as written: every GET request on a migrated host whose path starts
    with "/packages/" and ends with "/" satisfies the lookup condition and
    reaches the store with the empty name. *)
Definition every_trailing_slash_path_is_looked_up : Prop :=
  ∀ (r : http.Request) (w : World),
    http.Method r = "GET" → migratedHost (http.Host r) →
    StartsWith (url.Path (http.URL r)) "/packages/" →
    EndsWith (url.Path (http.URL r)) "/" →
    urlHasPrefix "/packages/" r = true
    ∧ traceOf (serve r w) = [EvQueryRow "getPackage" EmptyString].

(** ** Reading the JSON back

    A second reading of the bodies, written from the JSON grammar (RFC 8259,
    section 7) and not from the encoder: what a client that parses the body
    gets.  A Go string and a JSON string are compared by their code points. *)


Module jsontext.








End jsontext.



(** ** registry.go: the rest of the program *)

(** *** Startup: [getEnv] and [main]

    [main] reads the environment, connects to memcached and to the store,
    starts the node application, builds the proxy and listens.  Every step
    that fails ends the process through [log.Fatalf].  The calls it makes are
    recorded in a trace of [boot.Event]s and answered by a [boot.World].

    Once the node application is started, a goroutine waits for it and ends
    the process with "Node process failed" when it fails, wherever [main] then
    is.  The world says whether and when that happens: after how many further
    calls of [main].  [http.ListenAndServe] serves until it fails, if it
    does; [main] has no other way to return, so the value [inr tt] of a run
    stands for a process that goes on serving.  The trace holds the calls of
    [main] itself.  [defer pool.Close()] never runs, since [log.Fatal]
    exits. *)

Module exec.

(** The fields of [exec.Cmd] that [main] sets, but for [Stdout] and
    [Stderr]. *)
Record Cmd := mkCmd {
  Path : string;
  Args : list string;
  Env : list string
}.

(** [exec.Command(name, arg...)]. *)
Definition Command (name : string) (arg : list string) : Cmd :=
  {| Path := name; Args := name :: arg; Env := [] |}.

End exec.

Module pgxpool.

(** What [pgx.ParseURI] reads from a connection URI, kept as the URI. *)
Record ConnConfig := mkConnConfig {
  URI : string
}.

(** [pgx.ConnPoolConfig].  [AfterConnect] is given by the statements it
    prepares on each new connection, as (name, sql). *)
Record ConnPoolConfig := mkConnPoolConfig {
  ConnConfig_ : ConnConfig;
  MaxConnections : Z;
  AfterConnect : list (string * string)
}.

End pgxpool.

Module boot.

(** The answers of the operating system and of the network at startup; an
    error is [Some] of its text.  [cmd_Wait cmd] is [Some (n, e)] when
    [cmd.Wait] returns the error [e] and the goroutine ends the process once
    [main] has made [n] more calls after starting the node application (with
    [n] of 2 or more: while the server runs), and [None] when that does not
    happen while the process lives: the node application keeps running,
    exits without an error, or outlives the process.
    [http_ListenAndServe addr] is [None] when the server does not stop. *)
Record World := mkWorld {
  os_Getenv : string → string;
  os_Environ : list string;
  mc_Dial : string → string → option string;
  cn_Auth : string → string → option string;
  pgx_ParseURI : string → option string;
  pgx_NewConnPool : pgxpool.ConnPoolConfig → option string;
  exec_LookPath : string → string + string;
  cmd_Start : exec.Cmd → option string;
  cmd_Wait : exec.Cmd → option (nat * string);
  http_ListenAndServe : string → option string
}.

Inductive Event :=
  | Dial (network addr : string)
  | Auth (user pass : string)
  | ParseURI (uri : string)
  | NewConnPool (config : pgxpool.ConnPoolConfig)
  | LookPath (file : string)
  | Start (cmd : exec.Cmd)
  | Println (args : list string)
  | ListenAndServe (addr : string).

(** Startup computations: the trace, and either the message of the
    [log.Fatal] that ended the process or a value. *)
Definition B (A : Type) : Type := World → list Event * (string + A).

#[global] Instance B_ret : MRet B := fun A a _ => ([], inr a).

#[global] Instance B_bind : MBind B := fun A C k m w =>
  match m w with
  | (t1, inl msg) => (t1, inl msg)
  | (t1, inr a) => let '(t2, c) := k a w in (t1 ++ t2, c)
  end.

(** [log.Fatalf(prefix + "%s", err)] and [log.Fatal(err)]. *)
Definition Fatal {A} (msg : string) : B A := fun _ => ([], inl msg).

(** [if err != nil { log.Fatalf(prefix + "%s", err) }]. *)
Definition check (prefix : string) (err : option string) : B unit :=
  match err with
  | Some e => Fatal (prefix +:+ e)
  | None => mret tt
  end.

(** A call to a collaborator: the event and the answer of the world. *)
Definition call {A} (e : Event) (answer : World → A) : B A :=
  fun w => ([e], inr (answer w)).

(** [os.Getenv(key)] and [os.Environ()]. *)
Definition Getenv (key : string) : B string :=
  fun w => ([], inr (os_Getenv w key)).

Definition Environ : B (list string) :=
  fun w => ([], inr (os_Environ w)).

(** The goroutine [go func() { if err := cmd.Wait(); err != nil {
    log.Fatalf("Node process failed: %s", err) } }()]: whether and when it
    ends the process, and its effect at the point where [main] has made [n]
    calls since. *)
Definition Wait (cmd : exec.Cmd) : B (option (nat * string)) :=
  fun w => ([], inr (cmd_Wait w cmd)).

Definition unlessNodeFailed (failure : option (nat * string)) (n : nat)
    : B unit :=
  match failure with
  | Some (m, e) =>
      if Nat.eqb m n then Fatal ("Node process failed: " +:+ e) else mret tt
  | None => mret tt
  end.

End boot.

Definition getEnv (key def : string) : boot.B string :=
  k ← boot.Getenv key;
  if String.eqb k EmptyString then mret def else mret k.

(** The statement prepared on every connection of the pool (line 70). *)
Definition getPackageSQL : string :=
  "SELECT name, url FROM packages WHERE name = $1".

(** [main].  The registrations of lines 99-125 build [proxy]. *)
Definition main : boot.B unit :=
  memcachedURL ← getEnv "MEMCACHEDCLOUD_SERVERS" "localhost:11211";
  err ← boot.call (boot.Dial "tcp" memcachedURL)
          (fun w => boot.mc_Dial w "tcp" memcachedURL);
  _ ← boot.check "Memcached connection error: " err;
  memcachedUsername ← boot.Getenv "MEMCACHEDCLOUD_USERNAME";
  memcachedPassword ← boot.Getenv "MEMCACHEDCLOUD_PASSWORD";
  _ ← (if negb (String.eqb memcachedUsername EmptyString)
          && negb (String.eqb memcachedPassword EmptyString)
       then
         err ← boot.call (boot.Auth memcachedUsername memcachedPassword)
                 (fun w => boot.cn_Auth w memcachedUsername memcachedPassword);
         boot.check "Memcached auth error: " err
       else mret tt);
  databaseURL ← boot.Getenv "DATABASE_URL";
  err ← boot.call (boot.ParseURI databaseURL)
          (fun w => boot.pgx_ParseURI w databaseURL);
  _ ← boot.check "Parse URI error: " err;
  let pgxcfg := {| pgxpool.URI := databaseURL |} in
  let config :=
    {| pgxpool.ConnConfig_ := pgxcfg;
       pgxpool.MaxConnections := 20;
       pgxpool.AfterConnect := [("getPackage", getPackageSQL)] |} in
  err ← boot.call (boot.NewConnPool config)
          (fun w => boot.pgx_NewConnPool w config);
  _ ← boot.check "Connection error: " err;
  found ← boot.call (boot.LookPath "node") (fun w => boot.exec_LookPath w "node");
  match found with
  | inr e => boot.Fatal ("Could not lookup node path: " +:+ e)
  | inl binary =>
      let cmd := exec.Command binary ["--expose_gc"; "index.js"] in
      env ← boot.Environ;
      let env := env ++ ["PORT=3001"] in
      let cmd := {| exec.Path := exec.Path cmd;
                    exec.Args := exec.Args cmd;
                    exec.Env := env |} in
      err ← boot.call (boot.Start cmd) (fun w => boot.cmd_Start w cmd);
      _ ← boot.check "Could not start node: " err;
      failure ← boot.Wait cmd;
      _ ← boot.unlessNodeFailed failure 0;
      port ← getEnv "PORT" "3000";
      _ ← boot.call (boot.Println ["Starting web server at port"; port])
            (fun _ => tt);
      _ ← boot.unlessNodeFailed failure 1;
      err ← boot.call (boot.ListenAndServe (":" +:+ port))
              (fun w => boot.http_ListenAndServe w (":" +:+ port));
      match failure, err with
      | Some (_, e), _ => boot.Fatal ("Node process failed: " +:+ e)
      | None, Some err => boot.Fatal err
      | None, None => mret tt
      end
  end.

(** *** [nonProxy] and the entry of the proxy

    A request as [proxy.ServeHTTP] and [nonProxy] see it: the request of the
    handlers together with the scheme and the authority of its URL, the
    fields [URL.Scheme] and [URL.Host], which only these two read and
    write. *)
Record Inbound := mkInbound {
  Req : http.Request;
  URL_Scheme : string;
  URL_Host : string
}.

(** What becomes of a request: a handler answered it; it was sent on to the
    target of its URL; it was a CONNECT, which goproxy tunnels; or the model
    ran out of fuel. *)
Inductive Served :=
  | Answered (resp : http.Response)
  | Forwarded (scheme authority : string) (req : http.Request)
  | Tunnelled
  | Exhausted.

(** [nonProxy], with the [proxy.ServeHTTP] it calls as an argument. *)
Definition nonProxyWith (ServeHTTP : Inbound → M Served) (req : Inbound)
    : M Served :=
  let req := {| Req := Req req; URL_Scheme := "http"; URL_Host := URL_Host req |} in
  let req := {| Req := Req req; URL_Scheme := URL_Scheme req;
                URL_Host := "localhost:3001" |} in
  ServeHTTP req.

(** [proxy.ServeHTTP] of goproxy with [proxy.NonproxyHandler] set to
    [nonProxy]: a CONNECT is tunnelled; a request whose URL is not absolute
    (its scheme is empty) goes to the non-proxy handler; any other runs the
    request filter and is answered by a handler or sent on to its URL.
    [nonProxy] calls back into [ServeHTTP], so the two are tied by [fuel]. *)
Fixpoint ServeHTTP (fuel : nat) (r : Inbound) : M Served :=
  match fuel with
  | O => mret Exhausted
  | S fuel' =>
      if String.eqb (http.Method (Req r)) "CONNECT" then mret Tunnelled
      else if String.eqb (URL_Scheme r) EmptyString
      then nonProxyWith (ServeHTTP fuel') r
      else
        '(req, resp) ← goproxy.filterRequest proxy (Req r);
        match resp with
        | Some resp => mret (Answered resp)
        | None => mret (Forwarded (URL_Scheme r) (URL_Host r) req)
        end
  end.

Definition nonProxy (fuel : nat) : Inbound → M Served :=
  nonProxyWith (ServeHTTP fuel).

(** *** Vocabulary of the further statements *)

(** The 308 of the redirect handler and the 200 of the two resolvers. *)
Definition redirectResponse (r : http.Request) : http.Response :=
  withHeader
    (goproxy.NewResponse r "application/json" http.StatusPermanentRedirect
       EmptyString)
    (http.Header_Set
       (http.Header (goproxy.NewResponse r "application/json"
                       http.StatusPermanentRedirect EmptyString))
       "Location" (redirectTarget r)).

Definition resolvedResponse (r : http.Request) (body : string) : http.Response :=
  withHeader
    (goproxy.NewResponse r "application/json" http.StatusOK body)
    (http.Header_Add
       (http.Header (goproxy.NewResponse r "application/json" http.StatusOK body))
       "Cache-Control" "public, max-age=604800").

(** The registrations of [main] with the list and the lookup rule in the
    other order. *)
Definition proxyLookupFirst : goproxy.ProxyHttpServer :=
  let proxy := goproxy.NewProxyHttpServer in
  let proxy := goproxy.OnRequest_DoFunc proxy [] redirectHandler in
  let proxy := goproxy.OnRequest_DoFunc proxy [urlHasPrefix "/packages/"] getPackage in
  let proxy := goproxy.OnRequest_DoFunc proxy [pathIs "/packages"] listPackages in
  proxy.

(** A startup world in which every step succeeds and the node process does
    not fail, with the given environment; the server stops with an error. *)
Definition healthyBoot (getenv : string → string) (environ : list string)
    : boot.World :=
  {| boot.os_Getenv := getenv;
     boot.os_Environ := environ;
     boot.mc_Dial := fun _ _ => None;
     boot.cn_Auth := fun _ _ => None;
     boot.pgx_ParseURI := fun _ => None;
     boot.pgx_NewConnPool := fun _ => None;
     boot.exec_LookPath := fun _ => inl "/usr/bin/node";
     boot.cmd_Start := fun _ => None;
     boot.cmd_Wait := fun _ => None;
     boot.http_ListenAndServe := fun _ => Some "address already in use" |}.

(** An environment with the database URL and the memcached user only. *)
Definition exampleEnv (key : string) : string :=
  if String.eqb key "DATABASE_URL" then "postgres://localhost/bower"
  else if String.eqb key "MEMCACHEDCLOUD_USERNAME" then "bower"
  else EmptyString.

(** The same startup world, but for a node process that fails with [e] once
    [main] has made [n] more calls after starting it. *)
Definition nodeFailureBoot (getenv : string → string) (environ : list string)
    (n : nat) (e : string) : boot.World :=
  let w := healthyBoot getenv environ in
  {| boot.os_Getenv := boot.os_Getenv w;
     boot.os_Environ := boot.os_Environ w;
     boot.mc_Dial := boot.mc_Dial w;
     boot.cn_Auth := boot.cn_Auth w;
     boot.pgx_ParseURI := boot.pgx_ParseURI w;
     boot.pgx_NewConnPool := boot.pgx_NewConnPool w;
     boot.exec_LookPath := boot.exec_LookPath w;
     boot.cmd_Start := boot.cmd_Start w;
     boot.cmd_Wait := fun _ => Some (n, e);
     boot.http_ListenAndServe := boot.http_ListenAndServe w |}.

(** The ways of [serve], and what [serve r w] is on each. *)
Inductive Route :=
  | NotGET
  | Deprecation
  | Redirect
  | ListRule
  | LookupRule
  | NoRule.

Definition routed (r : http.Request) (w : World) (route : Route) : Prop :=
  match route with
  | NotGET =>
      http.Method r ≠ "GET" ∧ serve r w = ([], (r, None))
  | Deprecation =>
      http.Method r = "GET" ∧ ¬ migratedHost (http.Host r)
      ∧ StartsWith (url.Path (http.URL r)) "/packages/search/"
      ∧ serve r w
        = ([], (r, Some (goproxy.NewResponse r "application/json" 200
                           deprecationBody)))
  | Redirect =>
      http.Method r = "GET" ∧ ¬ migratedHost (http.Host r)
      ∧ ¬ StartsWith (url.Path (http.URL r)) "/packages/search/"
      ∧ serve r w = ([EvSleep (10 * time.Second)], (r, Some (redirectResponse r)))
  | ListRule =>
      http.Method r = "GET" ∧ migratedHost (http.Host r)
      ∧ url.Path (http.URL r) = "/packages"
      ∧ serve r w = listPackages r w
  | LookupRule =>
      http.Method r = "GET" ∧ migratedHost (http.Host r)
      ∧ StartsWith (url.Path (http.URL r)) "/packages/"
      ∧ ¬ StartsWith (url.Path (http.URL r)) "/packages/search/"
      ∧ serve r w = getPackage r w
  | NoRule =>
      http.Method r = "GET" ∧ migratedHost (http.Host r)
      ∧ url.Path (http.URL r) ≠ "/packages"
      ∧ (¬ StartsWith (url.Path (http.URL r)) "/packages/"
         ∨ StartsWith (url.Path (http.URL r)) "/packages/search/")
      ∧ serve r w = ([], (r, None))
  end.


(** What [getEnv key def] gives in a world. *)
Definition envOr (w : boot.World) (key def : string) : string :=
  if String.eqb (boot.os_Getenv w key) EmptyString then def
  else boot.os_Getenv w key.

(** Whether [main] authenticates in a world, with what, and the answer. *)
Definition authWanted (w : boot.World) : bool :=
  negb (String.eqb (boot.os_Getenv w "MEMCACHEDCLOUD_USERNAME") EmptyString)
  && negb (String.eqb (boot.os_Getenv w "MEMCACHEDCLOUD_PASSWORD") EmptyString).

Definition authEvents (w : boot.World) : list boot.Event :=
  if authWanted w
  then [boot.Auth (boot.os_Getenv w "MEMCACHEDCLOUD_USERNAME")
                  (boot.os_Getenv w "MEMCACHEDCLOUD_PASSWORD")]
  else [].

Definition authError (w : boot.World) : option string :=
  if authWanted w
  then boot.cn_Auth w (boot.os_Getenv w "MEMCACHEDCLOUD_USERNAME")
                      (boot.os_Getenv w "MEMCACHEDCLOUD_PASSWORD")
  else None.

(** The pool configuration and the node command [main] builds in a world. *)
Definition poolConfig (w : boot.World) : pgxpool.ConnPoolConfig :=
  {| pgxpool.ConnConfig_ := {| pgxpool.URI := boot.os_Getenv w "DATABASE_URL" |};
     pgxpool.MaxConnections := 20;
     pgxpool.AfterConnect := [("getPackage", getPackageSQL)] |}.

Definition nodeCmd (w : boot.World) (binary : string) : exec.Cmd :=
  {| exec.Path := binary;
     exec.Args := [binary; "--expose_gc"; "index.js"];
     exec.Env := boot.os_Environ w ++ ["PORT=3001"] |}.

(** The trace of a startup up to the start of the node application. *)
Definition setupTrace (w : boot.World) (binary : string) : list boot.Event :=
  [boot.Dial "tcp" (envOr w "MEMCACHEDCLOUD_SERVERS" "localhost:11211")]
  ++ authEvents w
  ++ [boot.ParseURI (boot.os_Getenv w "DATABASE_URL");
      boot.NewConnPool (poolConfig w);
      boot.LookPath "node";
      boot.Start (nodeCmd w binary)].

(** The trace of a startup that gets as far as listening. *)
Definition fullBootTrace (w : boot.World) (binary : string) : list boot.Event :=
  [boot.Dial "tcp" (envOr w "MEMCACHEDCLOUD_SERVERS" "localhost:11211")]
  ++ authEvents w
  ++ [boot.ParseURI (boot.os_Getenv w "DATABASE_URL");
      boot.NewConnPool (poolConfig w);
      boot.LookPath "node";
      boot.Start (nodeCmd w binary);
      boot.Println ["Starting web server at port"; envOr w "PORT" "3000"];
      boot.ListenAndServe (":" +:+ envOr w "PORT" "3000")].

(** ** Strings: prefixes and splitting *)

Lemma append_cons (c : ascii) (a b : string) :
  String c a +:+ b = String c (a +:+ b).
Proof. reflexivity. Qed.

Lemma append_nil_l (a : string) : EmptyString +:+ a = a.
Proof. reflexivity. Qed.

Lemma append_assoc (a b c : string) : (a +:+ b) +:+ c = a +:+ (b +:+ c).
Proof.
  induction a as [|x a IH]; [reflexivity|].
  rewrite !append_cons, IH. reflexivity.
Qed.

Lemma append_nil_r (a : string) : a +:+ EmptyString = a.
Proof.
  induction a as [|x a IH]; [reflexivity|].
  rewrite append_cons, IH. reflexivity.
Qed.

Lemma HasPrefix_spec (s p : string) :
  strings.HasPrefix s p = true ↔ StartsWith s p.
Proof.
  unfold strings.HasPrefix, StartsWith. revert s.
  induction p as [|c p IH]; intros s; simpl.
  - destruct s; split; eauto.
  - destruct s as [|d s]; simpl.
    + split; [discriminate | intros [rest H]; discriminate].
    + destruct (ascii_dec c d) as [->|Hne].
      * rewrite IH. split; intros [rest H]; exists rest;
          rewrite append_cons in *; congruence.
      * split; [discriminate|].
        intros [rest H]. rewrite append_cons in H. congruence.
Qed.

Lemma HasPrefix_false (s p : string) :
  strings.HasPrefix s p = false ↔ ¬ StartsWith s p.
Proof.
  rewrite <- HasPrefix_spec.
  destruct (strings.HasPrefix s p); split; intros; congruence.
Qed.

Section Split.

Variable sep : ascii.

Lemma Split_not_nil (s : string) : strings.Split s sep ≠ [].
Proof.
  destruct s as [|c s]; simpl; [discriminate|].
  destruct (Ascii.eqb c sep); [discriminate|].
  destruct (strings.Split s sep); discriminate.
Qed.

Lemma Split_no_sep (s : string) :
  hasByte sep s = false → strings.Split s sep = [s].
Proof.
  induction s as [|c s IH]; simpl; [reflexivity|].
  intros H. apply orb_false_iff in H as [Hc Hs].
  rewrite Hc, (IH Hs). reflexivity.
Qed.

Lemma Split_app (front rest : string) :
  strings.Split (front +:+ String sep rest) sep
  = strings.Split front sep ++ strings.Split rest sep.
Proof.
  induction front as [|c front IH].
  - rewrite append_nil_l. simpl. rewrite Ascii.eqb_refl. reflexivity.
  - rewrite append_cons. simpl.
    destruct (Ascii.eqb c sep); rewrite IH; [reflexivity|].
    pose proof (Split_not_nil front) as Hne.
    destruct (strings.Split front sep); [congruence | reflexivity].
Qed.

(** The segments hold no separator, and joined by it they give the string
    back: [strings.Split] cuts at every separator and nowhere else. *)
Lemma Split_segments (s : string) :
  Forall (fun x => hasByte sep x = false) (strings.Split s sep).
Proof.
  induction s as [|c s IH]; simpl.
  - repeat constructor.
  - destruct (Ascii.eqb c sep) eqn:Hc.
    + constructor; [reflexivity | exact IH].
    + destruct (strings.Split s sep) as [|x xs]; inversion IH; subst;
        constructor; simpl; try rewrite Hc; auto.
Qed.

Lemma Split_concat (s : string) :
  String.concat (String sep EmptyString) (strings.Split s sep) = s.
Proof.
  induction s as [|c s IH]; simpl; [reflexivity|].
  destruct (Ascii.eqb c sep) eqn:Hc.
  - apply Ascii.eqb_eq in Hc as ->.
    pose proof (Split_not_nil s) as Hne.
    destruct (strings.Split s sep) as [|x xs] eqn:E; [congruence|].
    rewrite <- IH. reflexivity.
  - destruct (strings.Split s sep) as [|x xs] eqn:E.
    + exfalso. revert E. apply Split_not_nil.
    + rewrite <- IH. destruct xs; reflexivity.
Qed.

Lemma lastOf_app (l1 l2 : list string) :
  l2 ≠ [] → lastOf (l1 ++ l2) = lastOf l2.
Proof.
  intros Hne. unfold lastOf.
  destruct l2 as [|x l2]; [congruence|].
  rewrite length_app. simpl.
  rewrite lookup_app_r by lia.
  f_equal. f_equal. lia.
Qed.

Lemma lookup_last_Some (l : list string) :
  l ≠ [] → l !! (length l - 1)%nat = Some (lastOf l).
Proof.
  intros Hne. unfold lastOf.
  destruct (l !! (length l - 1)%nat) eqn:E; [reflexivity|].
  apply lookup_ge_None in E. destruct l; [congruence | simpl in E; lia].
Qed.

Lemma lastOf_Split_app (front name : string) :
  hasByte sep name = false →
  lastOf (strings.Split (front +:+ String sep name) sep) = name.
Proof.
  intros H. rewrite Split_app, lastOf_app by apply Split_not_nil.
  rewrite (Split_no_sep _ H). reflexivity.
Qed.

End Split.

Lemma packageName_unfold (r : http.Request) :
  packageName r = lastOf (strings.Split (url.Path (http.URL r)) "/").
Proof. reflexivity. Qed.

Lemma lastOf_Split_trailing (front : string) :
  lastOf (strings.Split (front +:+ "/") "/") = EmptyString.
Proof. apply (lastOf_Split_app "/" front EmptyString). reflexivity. Qed.

Example Split_nested :
  strings.Split "/packages/a/b/c" "/" = [EmptyString; "packages"; "a"; "b"; "c"].
Proof. reflexivity. Qed.

Example Split_trailing_slash :
  strings.Split "/packages/foo/" "/"
  = [EmptyString; "packages"; "foo"; EmptyString].
Proof. reflexivity. Qed.

Example Split_empty_segments :
  strings.Split "/packages//x" "/" = [EmptyString; "packages"; EmptyString; "x"].
Proof. reflexivity. Qed.

Example Split_empty_path : strings.Split EmptyString "/" = [EmptyString].
Proof. reflexivity. Qed.

(** ** The JSON encoder *)




Example Marshal_jquery :
  json.Marshal {| Name := "jquery"; URL := "git://github.com/jquery/jquery.git" |}
  = json.Marshalled
      (lit "{'name':'jquery','url':'git://github.com/jquery/jquery.git'}").
Proof. reflexivity. Qed.

(** Quotes and backslashes get a backslash, and the bytes "<", ">" and "&"
    are written as \u escapes. *)
Example Marshal_escapes :
  json.Marshal {| Name := lit "a'b\c"; URL := "<x>&" |}
  = json.Marshalled
      (lit "{'name':'a\'b\\c','url':'\u003cx\u003e\u0026'}").
Proof. reflexivity. Qed.

(** ** The JSON reader *)















(** ** Headers *)

Lemma Header_Get_Set (h : gmap string (list string)) (key value : string) :
  http.Header_Get (http.Header_Set h key value) key = value.
Proof.
  unfold http.Header_Get, http.Header_Set. rewrite lookup_insert_eq.
  reflexivity.
Qed.

Lemma Header_lookup_Set (h : gmap string (list string)) (key value : string) :
  http.Header_Set h key value !! key = Some [value].
Proof. unfold http.Header_Set. apply lookup_insert_eq. Qed.

Lemma NewResponse_then_Add (r : http.Request) (ct : string) (status : Z)
    (body key value : string) :
  key ≠ "Content-Type" →
  http.Header_Add (http.Header (goproxy.NewResponse r ct status body)) key value
    !! key = Some [value]
  ∧ http.Header_Add (http.Header (goproxy.NewResponse r ct status body)) key value
      !! "Content-Type" = Some [ct].
Proof.
  intros Hne.
  change (http.Header (goproxy.NewResponse r ct status body))
    with (http.Header_Add ∅ "Content-Type" ct).
  unfold http.Header_Add. split.
  - rewrite lookup_insert_eq, lookup_insert_ne, lookup_empty by congruence.
    reflexivity.
  - rewrite lookup_insert_ne, lookup_insert_eq, lookup_empty by congruence.
    reflexivity.
Qed.

(** ** The request filter *)

(** Unfolds the operations of [M]. *)
Ltac run :=
  unfold mbind, M_bind, mret, M_ret, time.Sleep, pool.QueryRow_Scan, cn.Get.

Section Filter.

Variables (h : goproxy.ReqHandler) (hs : list goproxy.ReqHandler).
Variables (r req : http.Request) (w : World) (t : list Event).

Lemma filterHandlers_answered (resp : http.Response) :
  h r w = (t, (req, Some resp)) →
  goproxy.filterHandlers (h :: hs) r w = (t, (req, Some resp)).
Proof.
  intros H. simpl. run. rewrite H. simpl. rewrite app_nil_r. reflexivity.
Qed.

Lemma filterHandlers_declined :
  h r w = (t, (req, None)) →
  goproxy.filterHandlers (h :: hs) r w
  = (t ++ fst (goproxy.filterHandlers hs req w),
     snd (goproxy.filterHandlers hs req w)).
Proof.
  intros H. simpl. run. rewrite H. simpl.
  destruct (goproxy.filterHandlers hs req w). reflexivity.
Qed.

End Filter.

Lemma DoFunc_holds (cond : goproxy.ReqCondition) (f : goproxy.ReqHandler)
    (r : http.Request) :
  cond r = true → goproxy.DoFunc [cond] f r = f r.
Proof. intros H. unfold goproxy.DoFunc. simpl. rewrite H. reflexivity. Qed.

Lemma DoFunc_fails (cond : goproxy.ReqCondition) (f : goproxy.ReqHandler)
    (r : http.Request) (w : World) :
  cond r = false → goproxy.DoFunc [cond] f r w = ([], (r, None)).
Proof. intros H. unfold goproxy.DoFunc. simpl. rewrite H. reflexivity. Qed.

(** The registrations of [main], in order. *)
Lemma proxy_reqHandlers :
  goproxy.reqHandlers proxy
  = [ goproxy.DoFunc [] redirectHandler;
      goproxy.DoFunc [pathIs "/packages"] listPackages;
      goproxy.DoFunc [urlHasPrefix "/packages/"] getPackage ].
Proof. reflexivity. Qed.

Lemma laterRules_eq :
  laterRules
  = [ goproxy.DoFunc [pathIs "/packages"] listPackages;
      goproxy.DoFunc [urlHasPrefix "/packages/"] getPackage ].
Proof. reflexivity. Qed.

Lemma serve_answered (r : http.Request) (w : World) (t : list Event)
    (resp : http.Response) :
  redirectHandler r w = (t, (r, Some resp)) → serve r w = (t, (r, Some resp)).
Proof.
  intros H. unfold serve, goproxy.filterRequest. rewrite proxy_reqHandlers.
  apply filterHandlers_answered. exact H.
Qed.

Lemma serve_declined (r : http.Request) (w : World) :
  redirectHandler r w = ([], (r, None)) →
  serve r w = goproxy.filterHandlers laterRules r w.
Proof.
  intros H. unfold serve, goproxy.filterRequest.
  rewrite proxy_reqHandlers, laterRules_eq.
  rewrite (filterHandlers_declined _ _ r r w []) by exact H.
  destruct (goproxy.filterHandlers _ r w). reflexivity.
Qed.

(** ** The conditions *)

Lemma pathIs_true (path : string) (r : http.Request) :
  pathIs path r = true ↔ http.Method r = "GET" ∧ url.Path (http.URL r) = path.
Proof.
  unfold pathIs, http.MethodGet.
  rewrite andb_true_iff, !String.eqb_eq. reflexivity.
Qed.

Lemma urlHasPrefix_true (prefix : string) (r : http.Request) :
  urlHasPrefix prefix r = true ↔
  http.Method r = "GET" ∧ StartsWith (url.Path (http.URL r)) prefix
  ∧ ¬ StartsWith (url.Path (http.URL r)) "/packages/search/".
Proof.
  unfold urlHasPrefix, http.MethodGet.
  rewrite !andb_true_iff, negb_true_iff, String.eqb_eq,
    HasPrefix_spec, HasPrefix_false.
  tauto.
Qed.

Lemma StartsWith_packages_slash (p : string) :
  StartsWith p "/packages/" → p ≠ "/packages".
Proof. intros [rest ->] H. discriminate H. Qed.

Lemma pathIs_not_prefix (r : http.Request) :
  pathIs "/packages" r = true → urlHasPrefix "/packages/" r = false.
Proof.
  intros H. apply pathIs_true in H as [_ Hp].
  destruct (urlHasPrefix "/packages/" r) eqn:E; [|reflexivity].
  apply urlHasPrefix_true in E as (_ & Hs & _).
  exfalso. exact (StartsWith_packages_slash _ Hs Hp).
Qed.

Lemma prefix_not_pathIs (r : http.Request) :
  urlHasPrefix "/packages/" r = true → pathIs "/packages" r = false.
Proof.
  intros H. destruct (pathIs "/packages" r) eqn:E; [|reflexivity].
  apply pathIs_not_prefix in E. congruence.
Qed.

Lemma migratedHost_dec (h : string) : migratedHost h ∨ ¬ migratedHost h.
Proof.
  unfold migratedHost.
  destruct (String.eqb_spec h "registry.bower.io");
    destruct (String.eqb_spec h "components.bower.io"); tauto.
Qed.

(** ** The handlers, case by case *)

Lemma redirect_guard (r : http.Request) :
  String.eqb (http.Method r) "GET"
    && negb (String.eqb (http.Host r) "registry.bower.io")
    && negb (String.eqb (http.Host r) "components.bower.io") = true
  ↔ http.Method r = "GET" ∧ ¬ migratedHost (http.Host r).
Proof.
  unfold migratedHost.
  rewrite !andb_true_iff, !negb_true_iff, String.eqb_eq, !String.eqb_neq.
  tauto.
Qed.

Lemma redirectHandler_declines (r : http.Request) (w : World) :
  http.Method r ≠ "GET" ∨ migratedHost (http.Host r) →
  redirectHandler r w = ([], (r, None)).
Proof.
  intros H. unfold redirectHandler.
  destruct (String.eqb (http.Method r) "GET"
            && negb (String.eqb (http.Host r) "registry.bower.io")
            && negb (String.eqb (http.Host r) "components.bower.io")) eqn:E;
    [|reflexivity].
  apply redirect_guard in E. tauto.
Qed.

Lemma redirectHandler_search (r : http.Request) (w : World) :
  http.Method r = "GET" → ¬ migratedHost (http.Host r) →
  StartsWith (url.Path (http.URL r)) "/packages/search/" →
  redirectHandler r w
  = ([], (r, Some (goproxy.NewResponse r "application/json" http.StatusOK
                     deprecationBody))).
Proof.
  intros Hm Hh Hs. unfold redirectHandler.
  rewrite (proj2 (redirect_guard r) (conj Hm Hh)).
  rewrite (proj2 (HasPrefix_spec _ _) Hs). reflexivity.
Qed.

Lemma redirectHandler_throttle (r : http.Request) (w : World) :
  http.Method r = "GET" → ¬ migratedHost (http.Host r) →
  ¬ StartsWith (url.Path (http.URL r)) "/packages/search/" →
  redirectHandler r w
  = ([EvSleep (10 * time.Second)],
     (r, Some (withHeader
                 (goproxy.NewResponse r "application/json"
                    http.StatusPermanentRedirect EmptyString)
                 (http.Header_Set
                    (http.Header
                       (goproxy.NewResponse r "application/json"
                          http.StatusPermanentRedirect EmptyString))
                    "Location" (redirectTarget r))))).
Proof.
  intros Hm Hh Hs. unfold redirectHandler.
  rewrite (proj2 (redirect_guard r) (conj Hm Hh)).
  rewrite (proj2 (HasPrefix_false _ _) Hs).
  unfold redirectTarget. run.
  destruct (url.RawQuery (http.URL r)) as [|c q]; simpl.
  - rewrite append_nil_r. reflexivity.
  - rewrite append_assoc. reflexivity.
Qed.

Lemma getPackageWith_answers (marshal : Package → json.MarshalResult)
    (r : http.Request) (w : World) :
  ∃ resp, getPackageWith marshal r w
          = ([EvQueryRow "getPackage" (packageName r)], (r, Some resp)).
Proof.
  unfold getPackageWith. run.
  destruct (store w "getPackage" (packageName r)) as [n u|[|d]]; simpl.
  - destruct (marshal _); simpl; eexists; reflexivity.
  - eexists; reflexivity.
  - eexists; reflexivity.
Qed.

Lemma listPackages_returns_request (r : http.Request) (w : World) :
  fst (snd (listPackages r w)) = r.
Proof.
  unfold listPackages. run. destruct (cache w "packages"); reflexivity.
Qed.

(** ** What [serve] does, rule by rule *)

Lemma serve_migrated (r : http.Request) (w : World) :
  migratedHost (http.Host r) → serve r w = goproxy.filterHandlers laterRules r w.
Proof.
  intros Hh. apply serve_declined, redirectHandler_declines. right. exact Hh.
Qed.

Lemma serve_throttle (r : http.Request) (w : World) :
  http.Method r = "GET" → ¬ migratedHost (http.Host r) →
  ¬ StartsWith (url.Path (http.URL r)) "/packages/search/" →
  ∃ resp, serve r w = ([EvSleep (10 * time.Second)], (r, Some resp))
          ∧ http.StatusCode resp = 308
          ∧ http.Body resp = EmptyString
          ∧ http.Header resp !! "Location" = Some [redirectTarget r].
Proof.
  intros Hm Hh Hs. eexists.
  split; [apply serve_answered, redirectHandler_throttle; assumption|].
  split; [reflexivity|]. split; [reflexivity|].
  cbn [http.Header withHeader]. apply Header_lookup_Set.
Qed.

Lemma laterRules_list (r : http.Request) (w : World) :
  pathIs "/packages" r = true →
  goproxy.filterHandlers laterRules r w = listPackages r w.
Proof.
  intros H. rewrite laterRules_eq.
  pose proof (listPackages_returns_request r w) as Hr.
  destruct (listPackages r w) as [t [req [resp|]]] eqn:E; simpl in Hr; subst req.
  - apply filterHandlers_answered. rewrite DoFunc_holds by exact H. exact E.
  - rewrite (filterHandlers_declined _ _ r r w t)
      by (rewrite DoFunc_holds by exact H; exact E).
    rewrite (filterHandlers_declined _ _ r r w [])
      by (apply DoFunc_fails, pathIs_not_prefix, H).
    simpl. rewrite app_nil_r. reflexivity.
Qed.

Lemma laterRules_lookup (r : http.Request) (w : World) :
  urlHasPrefix "/packages/" r = true →
  goproxy.filterHandlers laterRules r w = getPackage r w.
Proof.
  intros H. rewrite laterRules_eq.
  rewrite (filterHandlers_declined _ _ r r w [])
    by (apply DoFunc_fails, prefix_not_pathIs, H).
  destruct (getPackageWith_answers json.Marshal r w) as [resp E].
  fold getPackage in E.
  rewrite (filterHandlers_answered _ _ r r w _ resp)
    by (rewrite DoFunc_holds by exact H; exact E).
  rewrite E. reflexivity.
Qed.

Lemma laterRules_none (r : http.Request) (w : World) :
  pathIs "/packages" r = false → urlHasPrefix "/packages/" r = false →
  goproxy.filterHandlers laterRules r w = ([], (r, None)).
Proof.
  intros H1 H2. rewrite laterRules_eq.
  rewrite (filterHandlers_declined _ _ r r w []) by (apply DoFunc_fails, H1).
  rewrite (filterHandlers_declined _ _ r r w []) by (apply DoFunc_fails, H2).
  reflexivity.
Qed.

Lemma serve_lookup (r : http.Request) (w : World) :
  migratedHost (http.Host r) → urlHasPrefix "/packages/" r = true →
  serve r w = getPackage r w
  ∧ traceOf (serve r w) = [EvQueryRow "getPackage" (packageName r)].
Proof.
  intros Hh Hp.
  rewrite (serve_migrated r w Hh), (laterRules_lookup r w Hp).
  split; [reflexivity|].
  destruct (getPackageWith_answers json.Marshal r w) as [resp E].
  unfold getPackage. rewrite E. reflexivity.
Qed.

(** ** Rule order *)

(** C1. The redirect rule is registered first and wins: a GET request on a
    host that is not migrated is answered by the redirect handler alone (the
    store and the cache are not consulted), and when the request also
    satisfies the list rule's condition or the lookup rule's condition the
    answer is the 308 that follows the 10 second sleep, not a response of the
    list or lookup handler. *)
Theorem redirect_rule_wins (r : http.Request) (w : World) :
  http.Method r = "GET" → ¬ migratedHost (http.Host r) →
  serve r w = redirectHandler r w
  ∧ (pathIs "/packages" r = true ∨ urlHasPrefix "/packages/" r = true →
     ∃ resp, serve r w = ([EvSleep (10 * time.Second)], (r, Some resp))
             ∧ http.StatusCode resp = 308
             ∧ responseOf (listPackages r w) ≠ Some resp
             ∧ responseOf (getPackage r w) ≠ Some resp).
Proof.
  intros Hm Hh.
  assert (Hnot : pathIs "/packages" r = true ∨ urlHasPrefix "/packages/" r = true →
                 ¬ StartsWith (url.Path (http.URL r)) "/packages/search/").
  { intros [H|H].
    - apply pathIs_true in H as [_ Hp]. rewrite Hp.
      intros [rest Hr]. discriminate Hr.
    - apply urlHasPrefix_true in H. tauto. }
  split.
  - destruct (strings.HasPrefix (url.Path (http.URL r)) "/packages/search/") eqn:E.
    + apply HasPrefix_spec in E.
      rewrite (redirectHandler_search r w Hm Hh E).
      apply serve_answered, redirectHandler_search; assumption.
    + apply HasPrefix_false in E.
      rewrite (redirectHandler_throttle r w Hm Hh E).
      apply serve_answered, redirectHandler_throttle; assumption.
  - intros Hrule. specialize (Hnot Hrule).
    eexists. split; [|split; [|split]].
    + apply serve_answered, redirectHandler_throttle; assumption.
    + reflexivity.
    + unfold responseOf, listPackages. run. simpl.
      destruct (cache w "packages"); simpl; [|discriminate].
      intros H. inversion H.
    + unfold responseOf, getPackage, getPackageWith. run. simpl.
      destruct (store w "getPackage" (packageName r)) as [n u|[|d]];
        simpl; intros H; inversion H.
Qed.

Lemma redirect_rule_wins_witness :
  let r := request "GET" "bower.herokuapp.com" "/packages" EmptyString in
  ∃ resp,
    serve r exampleWorld = ([EvSleep (10 * time.Second)], (r, Some resp))
    ∧ http.StatusCode resp = 308.
Proof.
  cbv zeta.
  destruct (redirect_rule_wins
              (request "GET" "bower.herokuapp.com" "/packages" EmptyString)
              exampleWorld) as [_ H].
  - reflexivity.
  - intros [H|H]; discriminate H.
  - destruct H as (resp & Hs & Hc & _).
    + left. reflexivity.
    + exists resp. split; assumption.
Defined.

(** C2. On a migrated host the redirect handler gives no response, whatever
    the method, path and query; the request goes on to the rules registered
    after it: the list handler when the list condition holds, the lookup
    handler when the lookup condition holds, and otherwise no handler answers
    and the request is left to the node application. *)
Theorem migrated_host_never_redirected (r : http.Request) (w : World) :
  migratedHost (http.Host r) →
  redirectHandler r w = ([], (r, None))
  ∧ serve r w = goproxy.filterHandlers laterRules r w
  ∧ (pathIs "/packages" r = true → serve r w = listPackages r w)
  ∧ (urlHasPrefix "/packages/" r = true → serve r w = getPackage r w)
  ∧ (pathIs "/packages" r = false → urlHasPrefix "/packages/" r = false →
     serve r w = ([], (r, None))).
Proof.
  intros Hh.
  assert (Hd : redirectHandler r w = ([], (r, None)))
    by (apply redirectHandler_declines; right; exact Hh).
  pose proof (serve_declined r w Hd) as Hs.
  split; [exact Hd|]. split; [exact Hs|]. rewrite Hs.
  split; [apply laterRules_list|].
  split; [apply laterRules_lookup | apply laterRules_none].
Qed.

Lemma migrated_host_never_redirected_witness :
  let r1 := request "GET" "components.bower.io" "/anything" "x=1" in
  let r2 := request "POST" "registry.bower.io" "/packages" EmptyString in
  redirectHandler r1 exampleWorld = ([], (r1, None))
  ∧ serve r2 exampleWorld = ([], (r2, None)).
Proof.
  cbv zeta. split.
  - exact (proj1 (migrated_host_never_redirected
                    (request "GET" "components.bower.io" "/anything" "x=1")
                    exampleWorld (or_intror eq_refl))).
  - destruct (migrated_host_never_redirected
                (request "POST" "registry.bower.io" "/packages" EmptyString)
                exampleWorld (or_introl eq_refl)) as (_ & _ & _ & _ & H).
    apply H; reflexivity.
Defined.

(** ** The redirect and deprecation responder *)

(** C3. A GET request under /packages/search/ on a host that is not migrated
    is answered at once (the trace is empty: no sleep, no store or cache
    call) with status 200 and, as body, the JSON array of the single object
    that [json.Marshal] writes for the package named "deprecated" whose url
    is the deprecation message, which is not empty. *)
Theorem search_gets_deprecation_notice (r : http.Request) (w : World) :
  http.Method r = "GET" → ¬ migratedHost (http.Host r) →
  StartsWith (url.Path (http.URL r)) "/packages/search/" →
  ∃ resp object,
    serve r w = ([], (r, Some resp))
    ∧ http.StatusCode resp = 200
    ∧ json.Marshal {| Name := "deprecated"; URL := deprecationMessage |}
      = json.Marshalled object
    ∧ http.Body resp = "[" +:+ object +:+ "]"
    ∧ deprecationMessage ≠ EmptyString
    ∧ http.Header resp !! "Content-Type" = Some ["application/json"]
    ∧ http.Header resp !! "Location" = None.
Proof.
  intros Hm Hh Hs.
  exists (goproxy.NewResponse r "application/json" http.StatusOK deprecationBody).
  eexists. split; [|split; [|split; [|split; [|split; [|split]]]]].
  - apply serve_answered, redirectHandler_search; assumption.
  - reflexivity.
  - reflexivity.
  - vm_compute. reflexivity.
  - discriminate.
  - reflexivity.
  - reflexivity.
Qed.

Lemma search_gets_deprecation_notice_witness :
  let r := request "GET" "bower.herokuapp.com" "/packages/search/jquery"
             EmptyString in
  ∃ resp,
    serve r exampleWorld = ([], (r, Some resp))
    ∧ http.StatusCode resp = 200
    ∧ http.Body resp = deprecationBody.
Proof.
  cbv zeta.
  destruct (search_gets_deprecation_notice
              (request "GET" "bower.herokuapp.com" "/packages/search/jquery"
                 EmptyString) exampleWorld)
    as (resp & object & Hs & Hc & Ho & Hb & _).
  - reflexivity.
  - intros [H|H]; discriminate H.
  - exists "jquery". reflexivity.
  - exists resp. split; [exact Hs|]. split; [exact Hc|].
    rewrite Hb. injection Ho as <-. vm_compute. reflexivity.
Defined.

(** C4. Every other GET request on a host that is not migrated makes the
    handler sleep 10 seconds (10^10 ns) and nothing else, and is then answered
    with status 308 and the Location header "https://registry.bower.io"
    followed by the request path, and by "?" and the raw query exactly when
    the raw query is not empty. *)
Theorem other_paths_get_throttled_redirect (r : http.Request) (w : World) :
  http.Method r = "GET" → ¬ migratedHost (http.Host r) →
  ¬ StartsWith (url.Path (http.URL r)) "/packages/search/" →
  ∃ resp,
    serve r w = ([EvSleep 10000000000], (r, Some resp))
    ∧ http.StatusCode resp = 308
    ∧ http.Header resp !! "Location"
      = Some [http.Header_Get (http.Header resp) "Location"]
    ∧ (url.RawQuery (http.URL r) = EmptyString →
       http.Header_Get (http.Header resp) "Location"
       = "https://registry.bower.io" +:+ url.Path (http.URL r))
    ∧ (url.RawQuery (http.URL r) ≠ EmptyString →
       http.Header_Get (http.Header resp) "Location"
       = "https://registry.bower.io" +:+ url.Path (http.URL r)
         +:+ "?" +:+ url.RawQuery (http.URL r)).
Proof.
  intros Hm Hh Hs. eexists.
  split; [apply serve_answered, redirectHandler_throttle; assumption|].
  split; [reflexivity|].
  cbn [http.Header withHeader]. rewrite Header_Get_Set, Header_lookup_Set.
  split; [reflexivity|]. unfold redirectTarget.
  split; intros Hq.
  - rewrite Hq, append_nil_r. reflexivity.
  - destruct (url.RawQuery (http.URL r)); [congruence | reflexivity].
Qed.

Lemma other_paths_get_throttled_redirect_witness :
  let r := request "GET" "bower.herokuapp.com" "/packages/jquery" "a=1&b=2" in
  ∃ resp,
    serve r exampleWorld = ([EvSleep 10000000000], (r, Some resp))
    ∧ http.StatusCode resp = 308
    ∧ http.Header_Get (http.Header resp) "Location"
      = "https://registry.bower.io/packages/jquery?a=1&b=2".
Proof.
  cbv zeta.
  destruct (other_paths_get_throttled_redirect
              (request "GET" "bower.herokuapp.com" "/packages/jquery" "a=1&b=2")
              exampleWorld)
    as (resp & Hs & Hc & _ & _ & Hq).
  - reflexivity.
  - intros [H|H]; discriminate H.
  - intros [rest H]; discriminate H.
  - exists resp. split; [exact Hs|]. split; [exact Hc|].
    rewrite Hq by discriminate. reflexivity.
Defined.

(** ** The package resolver *)



(** C6. The failures of [getPackage] and their renderings: no row gives 404
    with the text "Package not found"; any other failure of the query gives
    500 with the text "Internal server error"; a failure of the marshaller
    gives the same 500.  The response depends on the kind of failure only:
    the detail of the error is in none of them. *)
Theorem getPackage_error_rendering (marshal : Package → json.MarshalResult)
    (r : http.Request) (w : World) :
  let answer := store w "getPackage" (packageName r) in
  let notFound := goproxy.NewResponse r "text/html" 404 "Package not found" in
  let internal := goproxy.NewResponse r "text/html" 500 "Internal server error" in
  (answer = pgx.ScanErr pgx.ErrNoRows →
   getPackageWith marshal r w
   = ([EvQueryRow "getPackage" (packageName r)], (r, Some notFound)))
  ∧ (∀ detail, answer = pgx.ScanErr (pgx.Failure detail) →
     getPackageWith marshal r w
     = ([EvQueryRow "getPackage" (packageName r)], (r, Some internal)))
  ∧ (∀ name url detail,
       answer = pgx.Scanned name url →
       marshal {| Name := name; URL := url |} = json.MarshalErr detail →
       getPackageWith marshal r w
       = ([EvQueryRow "getPackage" (packageName r)], (r, Some internal)))
  ∧ (http.StatusCode notFound = 404 ∧ http.Body notFound = "Package not found")
  ∧ (http.StatusCode internal = 500
     ∧ http.Body internal = "Internal server error").
Proof.
  cbv zeta. unfold getPackageWith. run.
  split; [|split; [|split; [|split]]].
  - intros ->. reflexivity.
  - intros detail ->. reflexivity.
  - intros name url detail -> Hm. cbn iota. rewrite Hm. reflexivity.
  - split; reflexivity.
  - split; reflexivity.
Qed.

Lemma getPackage_error_rendering_witness :
  let missing := request "GET" "registry.bower.io" "/packages/missing"
                   EmptyString in
  let jquery := request "GET" "registry.bower.io" "/packages/jquery"
                  EmptyString in
  responseOf (getPackage missing exampleWorld)
  = Some (goproxy.NewResponse missing "text/html" 404 "Package not found")
  ∧ responseOf (getPackage jquery brokenWorld)
    = Some (goproxy.NewResponse jquery "text/html" 500 "Internal server error")
  ∧ responseOf (getPackageWith (fun _ => json.MarshalErr "unsupported value")
                  jquery exampleWorld)
    = Some (goproxy.NewResponse jquery "text/html" 500 "Internal server error").
Proof.
  cbv zeta. split; [|split].
  - destruct (getPackage_error_rendering json.Marshal
                (request "GET" "registry.bower.io" "/packages/missing" EmptyString)
                exampleWorld) as (H & _).
    unfold getPackage. rewrite H; reflexivity.
  - destruct (getPackage_error_rendering json.Marshal
                (request "GET" "registry.bower.io" "/packages/jquery" EmptyString)
                brokenWorld) as (_ & H & _).
    unfold getPackage. rewrite (H "connection refused"); reflexivity.
  - destruct (getPackage_error_rendering
                (fun _ => json.MarshalErr "unsupported value")
                (request "GET" "registry.bower.io" "/packages/jquery" EmptyString)
                exampleWorld) as (_ & _ & H & _).
    rewrite (H "jquery" "git://github.com/jquery/jquery.git" "unsupported value");
      reflexivity.
Defined.

(** C7. [listPackages] reads the cache key "packages" and nothing else.  On a
    hit it answers 200 with the cached value as body, unchanged, and
    Cache-Control: public, max-age=604800.  On any error of the cache read (a
    miss is the error ErrNotFound) it gives no response; a request for
    /packages is then answered by no later rule either, so the filter hands it
    on without a response of its own, and in no case with a 500. *)
Theorem listPackages_cache (r : http.Request) (w : World) :
  traceOf (listPackages r w) = [EvGet "packages"]
  ∧ (∀ val, cache w "packages" = mc.Val val →
     ∃ resp, listPackages r w = ([EvGet "packages"], (r, Some resp))
             ∧ http.StatusCode resp = 200
             ∧ http.Body resp = val
             ∧ http.Header resp !! "Cache-Control"
               = Some ["public, max-age=604800"])
  ∧ (∀ e, cache w "packages" = mc.Err e →
     listPackages r w = ([EvGet "packages"], (r, None))
     ∧ (pathIs "/packages" r = true → migratedHost (http.Host r) →
        serve r w = ([EvGet "packages"], (r, None)))
     ∧ (pathIs "/packages" r = true →
        ∀ resp, responseOf (serve r w) = Some resp → http.StatusCode resp ≠ 500)).
Proof.
  split; [|split].
  - unfold traceOf, listPackages. run.
    destruct (cache w "packages"); reflexivity.
  - intros val Hv. unfold listPackages. run. rewrite Hv.
    eexists. split; [reflexivity|]. split; [reflexivity|]. split; [reflexivity|].
    cbn [http.Header withHeader]. apply NewResponse_then_Add. discriminate.
  - intros e He.
    assert (Hl : listPackages r w = ([EvGet "packages"], (r, None)))
      by (unfold listPackages; run; rewrite He; reflexivity).
    split; [exact Hl|]. split.
    + intros Hp Hh.
      rewrite (serve_migrated r w Hh), (laterRules_list r w Hp). exact Hl.
    + intros Hp resp.
      destruct (migratedHost_dec (http.Host r)) as [Hh|Hh].
      * rewrite (serve_migrated r w Hh), (laterRules_list r w Hp), Hl.
        discriminate.
      * apply pathIs_true in Hp as [Hm Hpath].
        destruct (serve_throttle r w Hm Hh) as (resp' & Hs & Hc & _).
        { rewrite Hpath. intros [rest Hr]. discriminate Hr. }
        rewrite Hs. unfold responseOf. simpl. intros [= <-]. rewrite Hc. lia.
Qed.

Lemma listPackages_cache_witness :
  let r := request "GET" "registry.bower.io" "/packages" EmptyString in
  (∃ resp, listPackages r exampleWorld = ([EvGet "packages"], (r, Some resp))
           ∧ http.Body resp = "[]")
  ∧ serve r (tableWorld [] ∅) = ([EvGet "packages"], (r, None)).
Proof.
  cbv zeta. split.
  - destruct (listPackages_cache
                (request "GET" "registry.bower.io" "/packages" EmptyString)
                exampleWorld) as (_ & H & _).
    destruct (H "[]" eq_refl) as (resp & Hs & _ & Hb & _).
    exists resp. split; assumption.
  - destruct (listPackages_cache
                (request "GET" "registry.bower.io" "/packages" EmptyString)
                (tableWorld [] ∅)) as (_ & _ & H).
    destruct (H mc.ErrNotFound eq_refl) as (_ & Hs & _).
    apply Hs; [reflexivity | left; reflexivity].
Defined.

(** C8. The name [getPackage] asks the store for is the last element of the
    path split at every "/" (the segments hold no "/", and joined by "/" they
    give the path back): whatever follows the last "/" is the name, as it
    stands, and it is the argument of the one query the handler makes.  For
    "/packages/a/b/c" the name is "c". *)
Theorem packageName_is_last_segment (r : http.Request) :
  let elements := strings.Split (url.Path (http.URL r)) "/" in
  elements !! (length elements - 1)%nat = Some (packageName r)
  ∧ String.concat "/" elements = url.Path (http.URL r)
  ∧ Forall (fun segment => hasByte "/" segment = false) elements
  ∧ (∀ front name, hasByte "/" name = false →
       url.Path (http.URL r) = front +:+ "/" +:+ name → packageName r = name)
  ∧ (∀ marshal w,
       traceOf (getPackageWith marshal r w)
       = [EvQueryRow "getPackage" (packageName r)])
  ∧ packageName (request "GET" "registry.bower.io" "/packages/a/b/c" EmptyString)
    = "c".
Proof.
  cbv zeta. split; [|split; [|split; [|split; [|split]]]].
  - rewrite packageName_unfold. apply lookup_last_Some, Split_not_nil.
  - apply Split_concat.
  - apply Split_segments.
  - intros front name Hn Hp. rewrite packageName_unfold, Hp.
    apply lastOf_Split_app, Hn.
  - intros marshal w.
    destruct (getPackageWith_answers marshal r w) as [resp ->]. reflexivity.
  - reflexivity.
Qed.

Lemma packageName_is_last_segment_witness :
  packageName (request "GET" "registry.bower.io" "/packages/%40scope%2Fname"
                 EmptyString)
  = "%40scope%2Fname".
Proof.
  destruct (packageName_is_last_segment
              (request "GET" "registry.bower.io" "/packages/%40scope%2Fname"
                 EmptyString))
    as (_ & _ & _ & H & _).
  apply (H "/packages" "%40scope%2Fname"); reflexivity.
Defined.

(** ** Paths on the edge of the rules *)

(** C9, counterexample.  GET /packages/search/ on registry.bower.io starts
    with "/packages/" and ends with "/", but the search exclusion of
    [urlHasPrefix] makes the lookup condition false: no handler answers and
    the store is not queried. *)
Lemma trailing_slash_under_search_is_not_looked_up :
  let r := request "GET" "registry.bower.io" "/packages/search/" EmptyString in
  urlHasPrefix "/packages/" r = false
  ∧ serve r exampleWorld = ([], (r, None))
  ∧ ¬ every_trailing_slash_path_is_looked_up.
Proof.
  cbv zeta. split; [reflexivity|]. split; [reflexivity|].
  intros H.
  destruct (H (request "GET" "registry.bower.io" "/packages/search/" EmptyString)
              exampleWorld) as [Hc _].
  - reflexivity.
  - left. reflexivity.
  - exists "search/". reflexivity.
  - exists "/packages/search". reflexivity.
  - discriminate Hc.
Qed.

(** C9, amended.  A GET request on a migrated host whose path starts with
    "/packages/", does not start with "/packages/search/" and ends with "/"
    satisfies the lookup condition; the extracted name is the empty string,
    and the one thing the proxy does is to query the store for it: the
    request is answered by [getPackage]. *)
Theorem trailing_slash_looks_up_empty_name (r : http.Request) (w : World) :
  http.Method r = "GET" → migratedHost (http.Host r) →
  StartsWith (url.Path (http.URL r)) "/packages/" →
  ¬ StartsWith (url.Path (http.URL r)) "/packages/search/" →
  EndsWith (url.Path (http.URL r)) "/" →
  urlHasPrefix "/packages/" r = true
  ∧ packageName r = EmptyString
  ∧ serve r w = getPackage r w
  ∧ traceOf (serve r w) = [EvQueryRow "getPackage" EmptyString].
Proof.
  intros Hm Hh Hp Hs [front He].
  assert (Hc : urlHasPrefix "/packages/" r = true)
    by (apply urlHasPrefix_true; auto).
  assert (Hn : packageName r = EmptyString)
    by (rewrite packageName_unfold, He; apply lastOf_Split_trailing).
  destruct (serve_lookup r w Hh Hc) as [H1 H2].
  rewrite Hn in H2. auto.
Qed.

Lemma trailing_slash_looks_up_empty_name_witness :
  traceOf (serve (request "GET" "registry.bower.io" "/packages/foo/" EmptyString)
             exampleWorld)
  = [EvQueryRow "getPackage" EmptyString].
Proof.
  apply (trailing_slash_looks_up_empty_name
           (request "GET" "registry.bower.io" "/packages/foo/" EmptyString)
           exampleWorld).
  - reflexivity.
  - left. reflexivity.
  - exists "foo/". reflexivity.
  - intros [rest H]. discriminate H.
  - exists "/packages/foo". reflexivity.
Defined.

(** C10. The search test is on the prefix "/packages/search/", slash
    included, so the path "/packages/search" is not search traffic.  On a
    migrated host a GET for it satisfies the lookup condition and the store is
    queried for the name "search"; on any other host it gets the 308 after
    the 10 second sleep, with an empty body, not the deprecation JSON. *)
Theorem packages_search_without_slash (r : http.Request) (w : World) :
  http.Method r = "GET" → url.Path (http.URL r) = "/packages/search" →
  ¬ StartsWith (url.Path (http.URL r)) "/packages/search/"
  ∧ (migratedHost (http.Host r) →
     urlHasPrefix "/packages/" r = true
     ∧ packageName r = "search"
     ∧ serve r w = getPackage r w
     ∧ traceOf (serve r w) = [EvQueryRow "getPackage" "search"])
  ∧ (¬ migratedHost (http.Host r) →
     ∃ resp, serve r w = ([EvSleep 10000000000], (r, Some resp))
             ∧ http.StatusCode resp = 308
             ∧ http.Body resp = EmptyString
             ∧ http.Body resp ≠ deprecationBody
             ∧ http.Header resp !! "Location"
               = Some ["https://registry.bower.io/packages/search" +:+
                       match url.RawQuery (http.URL r) with
                       | EmptyString => EmptyString
                       | q => "?" +:+ q
                       end]).
Proof.
  intros Hm Hp.
  assert (Hs : ¬ StartsWith (url.Path (http.URL r)) "/packages/search/")
    by (rewrite Hp; intros [rest H]; discriminate H).
  split; [exact Hs|]. split.
  - intros Hh.
    assert (Hc : urlHasPrefix "/packages/" r = true).
    { apply urlHasPrefix_true. split; [exact Hm|]. split; [|exact Hs].
      rewrite Hp. exists "search". reflexivity. }
    assert (Hn : packageName r = "search")
      by (rewrite packageName_unfold, Hp; reflexivity).
    destruct (serve_lookup r w Hh Hc) as [H1 H2].
    rewrite Hn in H2. auto.
  - intros Hh.
    destruct (serve_throttle r w Hm Hh Hs) as (resp & H1 & H2 & H3 & H4).
    exists resp. split; [exact H1|]. split; [exact H2|]. split; [exact H3|].
    split; [rewrite H3; discriminate|].
    rewrite H4. unfold redirectTarget. rewrite Hp. reflexivity.
Qed.

Lemma packages_search_without_slash_witness :
  let migrated := request "GET" "registry.bower.io" "/packages/search"
                    EmptyString in
  let legacy := request "GET" "bower.herokuapp.com" "/packages/search"
                  EmptyString in
  traceOf (serve migrated exampleWorld) = [EvQueryRow "getPackage" "search"]
  ∧ ∃ resp,
      serve legacy exampleWorld = ([EvSleep 10000000000], (legacy, Some resp))
      ∧ http.StatusCode resp = 308.
Proof.
  cbv zeta. split.
  - destruct (packages_search_without_slash
                (request "GET" "registry.bower.io" "/packages/search" EmptyString)
                exampleWorld eq_refl eq_refl) as (_ & H & _).
    apply H. left. reflexivity.
  - destruct (packages_search_without_slash
                (request "GET" "bower.herokuapp.com" "/packages/search" EmptyString)
                exampleWorld eq_refl eq_refl) as (_ & _ & H).
    destruct H as (resp & Hs & Hc & _).
    + intros [H|H]; discriminate H.
    + exists resp. split; assumption.
Defined.

(** * Further properties of the program *)

(** ** The shapes of the handlers' results *)

Lemma listPackages_cases (r : http.Request) (w : World) :
  (∃ val, cache w "packages" = mc.Val val
          ∧ listPackages r w
            = ([EvGet "packages"], (r, Some (resolvedResponse r val))))
  ∨ (∃ e, cache w "packages" = mc.Err e
          ∧ listPackages r w = ([EvGet "packages"], (r, None))).
Proof.
  unfold listPackages. run.
  destruct (cache w "packages") as [val|e]; [left | right]; eauto.
Qed.

Lemma getPackage_cases (r : http.Request) (w : World) :
  (∃ name url,
     store w "getPackage" (packageName r) = pgx.Scanned name url
     ∧ getPackage r w
       = ([EvQueryRow "getPackage" (packageName r)],
          (r, Some (resolvedResponse r
                      (lit "{'name':" +:+ json.appendString name
                       +:+ lit ",'url':" +:+ json.appendString url +:+ "}")))))
  ∨ (store w "getPackage" (packageName r) = pgx.ScanErr pgx.ErrNoRows
     ∧ getPackage r w
       = ([EvQueryRow "getPackage" (packageName r)],
          (r, Some (goproxy.NewResponse r "text/html" 404 "Package not found"))))
  ∨ (∃ detail,
       store w "getPackage" (packageName r) = pgx.ScanErr (pgx.Failure detail)
       ∧ getPackage r w
         = ([EvQueryRow "getPackage" (packageName r)],
            (r, Some (goproxy.NewResponse r "text/html" 500
                        "Internal server error")))).
Proof.
  unfold getPackage, getPackageWith. run.
  destruct (store w "getPackage" (packageName r)) as [n u|[|d]].
  - left. exists n, u. split; reflexivity.
  - right. left. split; reflexivity.
  - right. right. exists d. split; reflexivity.
Qed.

Lemma pathIs_false_not_GET (path : string) (r : http.Request) :
  http.Method r ≠ "GET" → pathIs path r = false.
Proof.
  intros H. destruct (pathIs path r) eqn:E; [|reflexivity].
  apply pathIs_true in E. tauto.
Qed.

Lemma urlHasPrefix_false_not_GET (prefix : string) (r : http.Request) :
  http.Method r ≠ "GET" → urlHasPrefix prefix r = false.
Proof.
  intros H. destruct (urlHasPrefix prefix r) eqn:E; [|reflexivity].
  apply urlHasPrefix_true in E. tauto.
Qed.

Lemma StartsWith_dec (s p : string) : StartsWith s p ∨ ¬ StartsWith s p.
Proof.
  destruct (strings.HasPrefix s p) eqn:E.
  - left. apply HasPrefix_spec, E.
  - right. apply HasPrefix_false, E.
Qed.

Lemma serve_routed (r : http.Request) (w : World) : ∃ route, routed r w route.
Proof.
  destruct (String.eqb_spec (http.Method r) "GET") as [Hm|Hm].
  2:{ exists NotGET. split; [exact Hm|].
      rewrite serve_declined by (apply redirectHandler_declines; auto).
      apply laterRules_none;
        [apply pathIs_false_not_GET | apply urlHasPrefix_false_not_GET]; exact Hm. }
  destruct (StartsWith_dec (url.Path (http.URL r)) "/packages/search/") as [Hs|Hs];
    destruct (migratedHost_dec (http.Host r)) as [Hh|Hh].
  - exists NoRule. simpl. repeat split; auto.
    + intros Hp. rewrite Hp in Hs. destruct Hs as [rest Hs]. discriminate Hs.
    + rewrite (serve_migrated r w Hh). apply laterRules_none.
      * destruct (pathIs "/packages" r) eqn:E; [|reflexivity].
        apply pathIs_true in E as [_ Hp]. rewrite Hp in Hs.
        destruct Hs as [rest Hs]. discriminate Hs.
      * destruct (urlHasPrefix "/packages/" r) eqn:E; [|reflexivity].
        apply urlHasPrefix_true in E. tauto.
  - exists Deprecation. simpl. repeat split; auto.
    apply serve_answered, redirectHandler_search; assumption.
  - destruct (String.eqb_spec (url.Path (http.URL r)) "/packages") as [Hp|Hp].
    + exists ListRule. simpl. repeat split; auto.
      rewrite (serve_migrated r w Hh). apply laterRules_list.
      apply pathIs_true. auto.
    + destruct (StartsWith_dec (url.Path (http.URL r)) "/packages/") as [Hl|Hl].
      * exists LookupRule. simpl. repeat split; auto.
        rewrite (serve_migrated r w Hh). apply laterRules_lookup.
        apply urlHasPrefix_true. auto.
      * exists NoRule. simpl. repeat split; auto.
        rewrite (serve_migrated r w Hh). apply laterRules_none.
        -- destruct (pathIs "/packages" r) eqn:E; [|reflexivity].
           apply pathIs_true in E. tauto.
        -- destruct (urlHasPrefix "/packages/" r) eqn:E; [|reflexivity].
           apply urlHasPrefix_true in E. tauto.
  - exists Redirect. simpl. repeat split; auto.
    apply serve_answered, redirectHandler_throttle; assumption.
Qed.

(** Takes the cases of [serve r w], with the shape of the result in each. *)
Ltac serve_cases r w :=
  let route := fresh "route" in
  let e := fresh "e" in
  let val := fresh "val" in
  let name := fresh "name" in
  let u := fresh "u" in
  let detail := fresh "detail" in
  let Hm := fresh "Hm" in
  let Hh := fresh "Hh" in
  let Hp := fresh "Hp" in
  let Hs := fresh "Hs" in
  let Ha := fresh "Ha" in
  let Hserve := fresh "Hserve" in
  destruct (serve_routed r w) as [route Hserve];
  destruct route; simpl in Hserve;
  [ destruct Hserve as (Hm & Hserve)
  | destruct Hserve as (Hm & Hh & Hs & Hserve)
  | destruct Hserve as (Hm & Hh & Hs & Hserve)
  | destruct Hserve as (Hm & Hh & Hp & Hserve);
    destruct (listPackages_cases r w) as [(val & Ha & Hl)|(e & Ha & Hl)];
    rewrite Hl in Hserve; clear Hl
  | destruct Hserve as (Hm & Hh & Hp & Hs & Hserve);
    destruct (getPackage_cases r w)
      as [(name & u & Ha & Hl)|[(Ha & Hl)|(detail & Ha & Hl)]];
    rewrite Hl in Hserve; clear Hl
  | destruct Hserve as (Hm & Hh & Hp & Hs & Hserve) ].

Lemma StartsWith_search_not_list (p : string) :
  StartsWith p "/packages/search/" → p ≠ "/packages".
Proof. intros [rest ->] H. discriminate H. Qed.

Lemma StartsWith_search_packages (p : string) :
  StartsWith p "/packages/search/" → StartsWith p "/packages/".
Proof.
  intros [rest ->]. exists ("search/" +:+ rest). reflexivity.
Qed.

(** ** Which requests are answered, and at what cost *)

(** X1. A request whose method is not GET passes the three rules untouched:
    no handler answers it, and nothing sleeps, reads the cache or queries the
    store. *)
Theorem non_GET_is_never_answered (r : http.Request) (w : World) :
  http.Method r ≠ "GET" → serve r w = ([], (r, None)).
Proof.
  intros Hm. serve_cases r w; congruence.
Qed.

Lemma non_GET_is_never_answered_witness :
  let r := request "POST" "bower.herokuapp.com" "/packages" EmptyString in
  serve r exampleWorld = ([], (r, None)).
Proof.
  cbv zeta.
  apply (non_GET_is_never_answered
           (request "POST" "bower.herokuapp.com" "/packages" EmptyString)
           exampleWorld).
  discriminate.
Defined.

(** X2. Whatever the request, the handlers hand the request on as it came and
    make at most one call to a collaborator: one sleep, one cache read or one
    store query, never two. *)
Theorem serve_keeps_request_and_calls_once (r : http.Request) (w : World) :
  fst (snd (serve r w)) = r ∧ (length (traceOf (serve r w)) ≤ 1)%nat.
Proof.
  serve_cases r w; rewrite Hserve; simpl; split; (reflexivity || lia).
Qed.

(** X3. The store is queried exactly for GET requests on a migrated host
    whose path is under "/packages/" and not under "/packages/search/"; the
    statement is always "getPackage" and its argument the last path segment.
    Clients of other hosts never reach the store. *)
Theorem store_queried_only_by_lookup (r : http.Request) (w : World)
    (stmt arg : string) :
  EvQueryRow stmt arg ∈ traceOf (serve r w)
  ↔ http.Method r = "GET" ∧ migratedHost (http.Host r)
    ∧ StartsWith (url.Path (http.URL r)) "/packages/"
    ∧ ¬ StartsWith (url.Path (http.URL r)) "/packages/search/"
    ∧ stmt = "getPackage" ∧ arg = packageName r.
Proof.
  serve_cases r w; rewrite Hserve; unfold traceOf; simpl;
    rewrite ?elem_of_nil, ?list_elem_of_singleton;
    pose proof (StartsWith_packages_slash (url.Path (http.URL r)));
    intuition congruence.
Qed.

Lemma store_queried_only_by_lookup_witness :
  EvQueryRow "getPackage" "jquery"
  ∈ traceOf (serve (request "GET" "registry.bower.io" "/packages/jquery" "v=1")
               exampleWorld).
Proof.
  apply (store_queried_only_by_lookup
           (request "GET" "registry.bower.io" "/packages/jquery" "v=1")
           exampleWorld "getPackage" "jquery").
  split; [reflexivity|]. split; [left; reflexivity|].
  split; [exists "jquery"; reflexivity|].
  split; [intros [rest H]; discriminate H|]. split; reflexivity.
Defined.

(** X4. The cache is read exactly for GET requests on a migrated host whose
    path is "/packages", and the key read is always "packages". *)
Theorem cache_read_only_by_list (r : http.Request) (w : World) (key : string) :
  EvGet key ∈ traceOf (serve r w)
  ↔ http.Method r = "GET" ∧ migratedHost (http.Host r)
    ∧ url.Path (http.URL r) = "/packages" ∧ key = "packages".
Proof.
  serve_cases r w; rewrite Hserve; unfold traceOf; simpl;
    rewrite ?elem_of_nil, ?list_elem_of_singleton;
    pose proof (StartsWith_packages_slash (url.Path (http.URL r)));
    pose proof (StartsWith_search_not_list (url.Path (http.URL r)));
    intuition congruence.
Qed.

Lemma cache_read_only_by_list_witness :
  EvGet "packages"
  ∈ traceOf (serve (request "GET" "components.bower.io" "/packages" EmptyString)
               brokenWorld).
Proof.
  apply (cache_read_only_by_list
           (request "GET" "components.bower.io" "/packages" EmptyString)
           brokenWorld "packages").
  split; [reflexivity|]. split; [right; reflexivity|]. split; reflexivity.
Defined.

(** X5. A request is delayed exactly when it is a GET on a host that is not
    migrated with a path outside "/packages/search/", and the delay is always
    10 seconds: requests on migrated hosts, requests with other methods and
    search requests are never delayed. *)
Theorem sleep_only_before_redirect (r : http.Request) (w : World) (d : Z) :
  EvSleep d ∈ traceOf (serve r w)
  ↔ http.Method r = "GET" ∧ ¬ migratedHost (http.Host r)
    ∧ ¬ StartsWith (url.Path (http.URL r)) "/packages/search/"
    ∧ d = 10000000000.
Proof.
  change 10000000000 with (10 * time.Second).
  serve_cases r w; rewrite Hserve; unfold traceOf; simpl;
    rewrite ?elem_of_nil, ?list_elem_of_singleton;
    intuition congruence.
Qed.

Lemma sleep_only_before_redirect_witness :
  EvSleep 10000000000
  ∈ traceOf (serve (request "GET" "bower.herokuapp.com" "/" EmptyString)
               exampleWorld).
Proof.
  apply (sleep_only_before_redirect
           (request "GET" "bower.herokuapp.com" "/" EmptyString)
           exampleWorld 10000000000).
  split; [reflexivity|]. split; [intros [H|H]; discriminate H|].
  split; [intros [rest H]; discriminate H | reflexivity].
Defined.

(** X6. The requests the handlers leave to the node application are exactly:
    those with a method other than GET, and on a migrated host the GET
    requests for "/packages" when the cache read fails and for any path that
    is neither "/packages" nor a lookup path.  A GET on a host that is not
    migrated is never left to the node application. *)
Theorem delegated_exactly_when (r : http.Request) (w : World) :
  responseOf (serve r w) = None
  ↔ http.Method r ≠ "GET"
    ∨ (migratedHost (http.Host r)
       ∧ ((url.Path (http.URL r) = "/packages"
           ∧ ∃ e, cache w "packages" = mc.Err e)
          ∨ (url.Path (http.URL r) ≠ "/packages"
             ∧ (¬ StartsWith (url.Path (http.URL r)) "/packages/"
                ∨ StartsWith (url.Path (http.URL r)) "/packages/search/")))).
Proof.
  pose proof (StartsWith_packages_slash (url.Path (http.URL r))) as Hslash.
  serve_cases r w; rewrite Hserve; unfold responseOf; simpl.
  - tauto.
  - split; [discriminate | tauto].
  - split; [discriminate | tauto].
  - split; [discriminate|].
    intros [H|(_ & [(_ & e & He)|(H & _)])]; congruence.
  - split; [intros _; right; eauto|reflexivity].
  - split; [discriminate | tauto].
  - split; [discriminate | tauto].
  - split; [discriminate | tauto].
  - split; [intros _; right; tauto | reflexivity].
Qed.

Lemma delegated_exactly_when_witness :
  responseOf (serve (request "GET" "registry.bower.io" "/stats" EmptyString)
                exampleWorld) = None.
Proof.
  apply (delegated_exactly_when
           (request "GET" "registry.bower.io" "/stats" EmptyString) exampleWorld).
  right. split; [left; reflexivity|]. right.
  split; [discriminate|]. left. intros [rest H]. discriminate H.
Defined.

(** X7. On a migrated host a search path is left to the node application
    whatever the method: the deprecation notice is for the other hosts only,
    and the lookup rule excludes the path. *)
Theorem search_on_migrated_host_is_delegated (r : http.Request) (w : World) :
  migratedHost (http.Host r) →
  StartsWith (url.Path (http.URL r)) "/packages/search/" →
  serve r w = ([], (r, None)).
Proof.
  intros Hh Hs.
  pose proof (StartsWith_search_not_list _ Hs).
  serve_cases r w; try tauto; try congruence.
Qed.

Lemma search_on_migrated_host_is_delegated_witness :
  let r := request "GET" "registry.bower.io" "/packages/search/jquery"
             EmptyString in
  serve r exampleWorld = ([], (r, None)).
Proof.
  cbv zeta.
  apply (search_on_migrated_host_is_delegated
           (request "GET" "registry.bower.io" "/packages/search/jquery"
              EmptyString) exampleWorld).
  - left. reflexivity.
  - exists "jquery". reflexivity.
Defined.

(** ** The responses *)

Lemma NewResponse_lookup (r : http.Request) (ct : string) (status : Z)
    (body key : string) :
  http.Header (goproxy.NewResponse r ct status body) !! key
  = if String.eqb key "Content-Type" then Some [ct] else None.
Proof.
  change (http.Header (goproxy.NewResponse r ct status body))
    with (http.Header_Add ∅ "Content-Type" ct).
  unfold http.Header_Add.
  destruct (String.eqb_spec key "Content-Type") as [->|Hne].
  - rewrite lookup_insert_eq, lookup_empty. reflexivity.
  - rewrite lookup_insert_ne, lookup_empty by congruence. reflexivity.
Qed.

Lemma redirectResponse_lookup (r : http.Request) (key : string) :
  http.Header (redirectResponse r) !! key
  = if String.eqb key "Location" then Some [redirectTarget r]
    else if String.eqb key "Content-Type" then Some ["application/json"]
    else None.
Proof.
  unfold redirectResponse. cbn [http.Header withHeader]. unfold http.Header_Set.
  destruct (String.eqb_spec key "Location") as [->|Hne].
  - apply lookup_insert_eq.
  - rewrite lookup_insert_ne by congruence.
    exact (NewResponse_lookup r "application/json" http.StatusPermanentRedirect
             EmptyString key).
Qed.

Lemma resolvedResponse_lookup (r : http.Request) (body key : string) :
  http.Header (resolvedResponse r body) !! key
  = if String.eqb key "Cache-Control" then Some ["public, max-age=604800"]
    else if String.eqb key "Content-Type" then Some ["application/json"]
    else None.
Proof.
  unfold resolvedResponse. cbn [http.Header withHeader]. unfold http.Header_Add.
  rewrite (NewResponse_lookup r _ _ _ "Cache-Control"). simpl.
  destruct (String.eqb_spec key "Cache-Control") as [->|Hne].
  - apply lookup_insert_eq.
  - rewrite lookup_insert_ne by congruence.
    exact (NewResponse_lookup r "application/json" http.StatusOK body key).
Qed.

(** X8. Only what was resolved is cacheable: a response carries
    Cache-Control (public, max-age=604800) exactly when it is a 200 on a
    migrated host, that is a package or the list; the 404 and 500 of the
    lookup, the 308 and the deprecation notice carry no Cache-Control. *)
Theorem cache_control_only_on_resolved (r : http.Request) (w : World)
    (resp : http.Response) :
  responseOf (serve r w) = Some resp →
  http.Header resp !! "Cache-Control"
  = if decide (http.StatusCode resp = 200 ∧ migratedHost (http.Host r))
    then Some ["public, max-age=604800"] else None.
Proof.
  serve_cases r w; rewrite Hserve; unfold responseOf; simpl; intros [= <-];
    rewrite ?NewResponse_lookup, ?redirectResponse_lookup,
      ?resolvedResponse_lookup;
    case_decide as Hd; simpl in *; try reflexivity; exfalso;
    first [ apply Hd; split; [reflexivity | assumption]
          | destruct Hd as [Hd1 Hd2]; (contradiction || discriminate) ].
Qed.

Lemma cache_control_only_on_resolved_witness :
  ∃ resp,
    responseOf (serve (request "GET" "registry.bower.io" "/packages/missing"
                         EmptyString) exampleWorld) = Some resp
    ∧ http.StatusCode resp = 404
    ∧ http.Header resp !! "Cache-Control" = None.
Proof.
  eexists. split; [reflexivity|]. split; [reflexivity|].
  rewrite (cache_control_only_on_resolved
             (request "GET" "registry.bower.io" "/packages/missing" EmptyString)
             exampleWorld _ eq_refl).
  reflexivity.
Defined.

(** X9. Every response of the handlers is well formed: its status is 200,
    308, 404 or 500; its Content-Length is the length of its body; and it has
    exactly one Content-Type, text/html for the 404 and the 500 and
    application/json for the others. *)
Theorem responses_are_well_formed (r : http.Request) (w : World)
    (resp : http.Response) :
  responseOf (serve r w) = Some resp →
  (http.StatusCode resp = 200 ∨ http.StatusCode resp = 308
   ∨ http.StatusCode resp = 404 ∨ http.StatusCode resp = 500)
  ∧ http.ContentLength resp = Z.of_nat (String.length (http.Body resp))
  ∧ http.Header resp !! "Content-Type"
    = Some [if (http.StatusCode resp =? 404) || (http.StatusCode resp =? 500)
            then "text/html" else "application/json"].
Proof.
  serve_cases r w; rewrite Hserve; unfold responseOf; simpl;
    intros [= <-];
    rewrite ?NewResponse_lookup, ?redirectResponse_lookup,
      ?resolvedResponse_lookup; simpl; tauto.
Qed.

Lemma responses_are_well_formed_witness :
  ∃ resp,
    responseOf (serve (request "GET" "registry.bower.io" "/packages/jquery"
                         EmptyString) brokenWorld) = Some resp
    ∧ http.ContentLength resp = 21
    ∧ http.Header resp !! "Content-Type" = Some ["text/html"].
Proof.
  eexists. split; [reflexivity|].
  destruct (responses_are_well_formed
              (request "GET" "registry.bower.io" "/packages/jquery" EmptyString)
              brokenWorld _ eq_refl) as (_ & Hlen & Hct).
  split; [exact Hlen | exact Hct].
Defined.

(** X10. A response is a 308 exactly for a GET on a host that is not
    migrated with a path outside "/packages/search/".  The 308 has an empty
    body and the one Location built from the request; no other response has
    a Location header. *)
Theorem location_only_on_redirect (r : http.Request) (w : World)
    (resp : http.Response) :
  responseOf (serve r w) = Some resp →
  (http.StatusCode resp = 308
   ↔ http.Method r = "GET" ∧ ¬ migratedHost (http.Host r)
     ∧ ¬ StartsWith (url.Path (http.URL r)) "/packages/search/")
  ∧ (http.StatusCode resp = 308 →
     http.Body resp = EmptyString
     ∧ http.Header resp !! "Location" = Some [redirectTarget r])
  ∧ (http.StatusCode resp ≠ 308 → http.Header resp !! "Location" = None).
Proof.
  serve_cases r w; rewrite Hserve; unfold responseOf; simpl;
    intros [= <-];
    rewrite ?NewResponse_lookup, ?redirectResponse_lookup,
      ?resolvedResponse_lookup; simpl;
    intuition (try discriminate; try congruence).
Qed.

Lemma location_only_on_redirect_witness :
  ∃ resp,
    responseOf (serve (request "GET" "registry.bower.io" "/packages" EmptyString)
                  exampleWorld) = Some resp
    ∧ http.Header resp !! "Location" = None.
Proof.
  eexists. split; [reflexivity|].
  destruct (location_only_on_redirect
              (request "GET" "registry.bower.io" "/packages" EmptyString)
              exampleWorld _ eq_refl) as (_ & _ & Hl).
  apply Hl. discriminate.
Defined.

(** ** The package name *)

(** A string without the separator, or its cut at the last separator. *)
Lemma last_separator (sep : ascii) (s : string) :
  hasByte sep s = false
  ∨ ∃ front name, s = front +:+ String sep name ∧ hasByte sep name = false.
Proof.
  induction s as [|c s IH]; [left; reflexivity|].
  destruct IH as [Hno|(front & name & -> & Hname)].
  - simpl. destruct (Ascii.eqb c sep) eqn:Hc.
    + right. exists EmptyString, s. apply Ascii.eqb_eq in Hc as ->. auto.
    + left. exact Hno.
  - right. exists (String c front), name. auto.
Qed.

Lemma hasByte_app (sep : ascii) (a b : string) :
  hasByte sep (a +:+ b) = hasByte sep a || hasByte sep b.
Proof.
  induction a as [|c a IH]; [reflexivity|].
  rewrite append_cons. simpl. rewrite IH. apply orb_assoc.
Qed.

(** X11. The name [getPackage] looks up never holds a "/": it is the part of
    the path after its last "/", and the whole path when the path has none.
    So a package whose name holds a "/" cannot be looked up. *)
Theorem packageName_has_no_slash (r : http.Request) :
  hasByte "/" (packageName r) = false
  ∧ (hasByte "/" (url.Path (http.URL r)) = true →
     EndsWith (url.Path (http.URL r)) ("/" +:+ packageName r))
  ∧ (hasByte "/" (url.Path (http.URL r)) = false →
     packageName r = url.Path (http.URL r)).
Proof.
  rewrite packageName_unfold.
  destruct (last_separator "/" (url.Path (http.URL r)))
    as [Hno|(front & name & Hp & Hname)].
  - rewrite (Split_no_sep "/" _ Hno). repeat split; auto. congruence.
  - rewrite Hp, (lastOf_Split_app "/" front name Hname).
    split; [exact Hname|]. split.
    + intros _. exists front. reflexivity.
    + rewrite hasByte_app. simpl. rewrite orb_true_r. discriminate.
Qed.

Lemma packageName_has_no_slash_witness :
  EndsWith "/packages/a/b" ("/" +:+ packageName
                                     (request "GET" "registry.bower.io"
                                        "/packages/a/b" EmptyString)).
Proof.
  apply (packageName_has_no_slash
           (request "GET" "registry.bower.io" "/packages/a/b" EmptyString)).
  reflexivity.
Defined.

(** X12. The looked-up name is empty exactly when the path is empty or ends
    with "/". *)
Theorem packageName_empty_iff_trailing_slash (r : http.Request) :
  packageName r = EmptyString
  ↔ url.Path (http.URL r) = EmptyString ∨ EndsWith (url.Path (http.URL r)) "/".
Proof.
  rewrite packageName_unfold. split.
  - destruct (last_separator "/" (url.Path (http.URL r)))
      as [Hno|(front & name & Hp & Hname)].
    + rewrite (Split_no_sep "/" _ Hno). left. assumption.
    + rewrite Hp, (lastOf_Split_app "/" front name Hname).
      intros ->. right. exists front. reflexivity.
  - intros [->|[front ->]]; [reflexivity | apply lastOf_Split_trailing].
Qed.

Lemma packageName_empty_iff_trailing_slash_witness :
  packageName (request "GET" "registry.bower.io" "/packages/" EmptyString)
  = EmptyString.
Proof.
  apply (packageName_empty_iff_trailing_slash
           (request "GET" "registry.bower.io" "/packages/" EmptyString)).
  right. exists "/packages". reflexivity.
Defined.

(** ** The lookup handler as a whole *)

(** X13. [getPackage] always answers, after exactly one query: unlike the
    list handler it never leaves a request to the node application.  The
    status is 200 exactly when the query scans a row, 404 exactly when it
    finds none and 500 exactly when it fails otherwise; with [json.Marshal]
    the branch for a marshalling error is never taken.  The body of the 200
    is built from the scanned row, not from the path. *)
Theorem getPackage_always_answers (r : http.Request) (w : World) :
  ∃ resp,
    getPackage r w = ([EvQueryRow "getPackage" (packageName r)], (r, Some resp))
    ∧ (http.StatusCode resp = 200
       ↔ ∃ name url,
           store w "getPackage" (packageName r) = pgx.Scanned name url
           ∧ http.Body resp
             = lit "{'name':" +:+ json.appendString name
               +:+ lit ",'url':" +:+ json.appendString url +:+ "}")
    ∧ (http.StatusCode resp = 404
       ↔ store w "getPackage" (packageName r) = pgx.ScanErr pgx.ErrNoRows)
    ∧ (http.StatusCode resp = 500
       ↔ ∃ detail,
           store w "getPackage" (packageName r) = pgx.ScanErr (pgx.Failure detail)).
Proof.
  destruct (getPackage_cases r w)
    as [(name & u & Ha & ->)|[(Ha & ->)|(detail & Ha & ->)]];
    eexists; (split; [reflexivity|]); rewrite Ha; simpl;
    (split; [|split]); split; intros H;
    try discriminate; try reflexivity; eauto;
    try (destruct H as (? & ? & ? & _); discriminate);
    try (destruct H as (? & ?); discriminate).
Qed.

(** ** The order of the registrations *)

Lemma DoFunc_nil (f : goproxy.ReqHandler) (r : http.Request) :
  goproxy.DoFunc [] f r = f r.
Proof. reflexivity. Qed.

Lemma proxyLookupFirst_reqHandlers :
  goproxy.reqHandlers proxyLookupFirst
  = [ goproxy.DoFunc [] redirectHandler;
      goproxy.DoFunc [urlHasPrefix "/packages/"] getPackage;
      goproxy.DoFunc [pathIs "/packages"] listPackages ].
Proof. reflexivity. Qed.

Lemma swapped_list (r : http.Request) (w : World) :
  pathIs "/packages" r = true →
  goproxy.filterHandlers
    [ goproxy.DoFunc [urlHasPrefix "/packages/"] getPackage;
      goproxy.DoFunc [pathIs "/packages"] listPackages ] r w
  = listPackages r w.
Proof.
  intros H.
  rewrite (filterHandlers_declined _ _ r r w [])
    by (apply DoFunc_fails, pathIs_not_prefix, H).
  destruct (listPackages_cases r w) as [(val & _ & E)|(e & _ & E)].
  - rewrite (filterHandlers_answered _ _ r r w _ _)
      by (rewrite DoFunc_holds by exact H; exact E).
    rewrite E. reflexivity.
  - rewrite (filterHandlers_declined _ _ r r w [EvGet "packages"])
      by (rewrite DoFunc_holds by exact H; exact E).
    rewrite E. reflexivity.
Qed.

Lemma swapped_lookup (r : http.Request) (w : World) :
  urlHasPrefix "/packages/" r = true →
  goproxy.filterHandlers
    [ goproxy.DoFunc [urlHasPrefix "/packages/"] getPackage;
      goproxy.DoFunc [pathIs "/packages"] listPackages ] r w
  = getPackage r w.
Proof.
  intros H.
  destruct (getPackageWith_answers json.Marshal r w) as [resp E].
  fold getPackage in E.
  rewrite (filterHandlers_answered _ _ r r w _ resp)
    by (rewrite DoFunc_holds by exact H; exact E).
  rewrite E. reflexivity.
Qed.

Lemma swapped_none (r : http.Request) (w : World) :
  pathIs "/packages" r = false → urlHasPrefix "/packages/" r = false →
  goproxy.filterHandlers
    [ goproxy.DoFunc [urlHasPrefix "/packages/"] getPackage;
      goproxy.DoFunc [pathIs "/packages"] listPackages ] r w
  = ([], (r, None)).
Proof.
  intros H1 H2.
  rewrite (filterHandlers_declined _ _ r r w []) by (apply DoFunc_fails, H2).
  rewrite (filterHandlers_declined _ _ r r w []) by (apply DoFunc_fails, H1).
  reflexivity.
Qed.

Lemma redirectHandler_answers_or_declines (r : http.Request) (w : World) :
  (∃ t resp, redirectHandler r w = (t, (r, Some resp)))
  ∨ redirectHandler r w = ([], (r, None)).
Proof.
  destruct (String.eqb_spec (http.Method r) "GET") as [Hm|Hm];
    [|right; apply redirectHandler_declines; auto].
  destruct (migratedHost_dec (http.Host r)) as [Hh|Hh];
    [right; apply redirectHandler_declines; auto|].
  left.
  destruct (StartsWith_dec (url.Path (http.URL r)) "/packages/search/") as [Hs|Hs].
  - rewrite (redirectHandler_search r w Hm Hh Hs). eauto.
  - rewrite (redirectHandler_throttle r w Hm Hh Hs). eauto.
Qed.

(** X14. The list rule and the lookup rule never hold together, so their
    order does not matter: registering the lookup rule before the list rule
    gives, for every request and every state of the store and the cache, the
    same calls and the same result.  Only the place of the redirect rule
    counts. *)
Theorem list_and_lookup_order_is_irrelevant (r : http.Request) (w : World) :
  (pathIs "/packages" r && urlHasPrefix "/packages/" r = false)
  ∧ goproxy.filterRequest proxyLookupFirst r w = serve r w.
Proof.
  split.
  { destruct (pathIs "/packages" r) eqn:E; [|reflexivity].
    simpl. apply pathIs_not_prefix, E. }
  unfold goproxy.filterRequest. rewrite proxyLookupFirst_reqHandlers.
  destruct (redirectHandler_answers_or_declines r w) as [(t & resp & E)|E].
  - rewrite (serve_answered r w t resp E).
    apply filterHandlers_answered. rewrite DoFunc_nil. exact E.
  - rewrite (serve_declined r w E).
    rewrite (filterHandlers_declined _ _ r r w [])
      by (rewrite DoFunc_nil; exact E).
    simpl app. rewrite <- surjective_pairing.
    destruct (pathIs "/packages" r) eqn:Hl;
      destruct (urlHasPrefix "/packages/" r) eqn:Hp.
    + apply pathIs_not_prefix in Hl. congruence.
    + rewrite swapped_list, laterRules_list by exact Hl. reflexivity.
    + rewrite swapped_lookup, laterRules_lookup by exact Hp. reflexivity.
    + rewrite swapped_none, laterRules_none by assumption. reflexivity.
Qed.

(** ** Startup *)

Lemma getEnv_run (key def : string) (w : boot.World) :
  getEnv key def w = ([], inr (envOr w key def)).
Proof.
  unfold getEnv, envOr, boot.Getenv, mbind, boot.B_bind, mret, boot.B_ret.
  destruct (String.eqb (boot.os_Getenv w key) EmptyString); reflexivity.
Qed.

(** [main], step by step: the run stops at the first call that fails; once
    the node application runs, it stops when that fails, or when the server
    does. *)
Lemma main_run (w : boot.World) :
  main w
  = let addr := envOr w "MEMCACHEDCLOUD_SERVERS" "localhost:11211" in
    let uri := boot.os_Getenv w "DATABASE_URL" in
    let port := envOr w "PORT" "3000" in
    match boot.mc_Dial w "tcp" addr with
    | Some e => ([boot.Dial "tcp" addr], inl ("Memcached connection error: " +:+ e))
    | None =>
    match authError w with
    | Some e =>
        ([boot.Dial "tcp" addr] ++ authEvents w,
         inl ("Memcached auth error: " +:+ e))
    | None =>
    match boot.pgx_ParseURI w uri with
    | Some e =>
        ([boot.Dial "tcp" addr] ++ authEvents w ++ [boot.ParseURI uri],
         inl ("Parse URI error: " +:+ e))
    | None =>
    match boot.pgx_NewConnPool w (poolConfig w) with
    | Some e =>
        ([boot.Dial "tcp" addr] ++ authEvents w
         ++ [boot.ParseURI uri; boot.NewConnPool (poolConfig w)],
         inl ("Connection error: " +:+ e))
    | None =>
    match boot.exec_LookPath w "node" with
    | inr e =>
        ([boot.Dial "tcp" addr] ++ authEvents w
         ++ [boot.ParseURI uri; boot.NewConnPool (poolConfig w);
             boot.LookPath "node"],
         inl ("Could not lookup node path: " +:+ e))
    | inl binary =>
    match boot.cmd_Start w (nodeCmd w binary) with
    | Some e => (setupTrace w binary, inl ("Could not start node: " +:+ e))
    | None =>
    match boot.cmd_Wait w (nodeCmd w binary) with
    | Some (0%nat, e) =>
        (setupTrace w binary, inl ("Node process failed: " +:+ e))
    | Some (1%nat, e) =>
        (setupTrace w binary
         ++ [boot.Println ["Starting web server at port"; port]],
         inl ("Node process failed: " +:+ e))
    | Some (_, e) =>
        (fullBootTrace w binary, inl ("Node process failed: " +:+ e))
    | None =>
        (fullBootTrace w binary,
         match boot.http_ListenAndServe w (":" +:+ port) with
         | Some err => inl err
         | None => inr tt
         end)
    end end end end end end end.
Proof.
  cbv zeta. unfold main.
  unfold mbind at 1. unfold boot.B_bind at 1. rewrite getEnv_run.
  unfold fullBootTrace, setupTrace, authError, authEvents, authWanted,
    poolConfig, nodeCmd, exec.Command.
  unfold mbind, boot.B_bind, mret, boot.B_ret, boot.call, boot.check,
    boot.Fatal, boot.Getenv, boot.Environ, boot.Wait, boot.unlessNodeFailed.
  cbn [exec.Path exec.Args exec.Env].
  destruct (boot.mc_Dial w "tcp" _) as [e|]; [reflexivity|].
  destruct (negb (String.eqb (boot.os_Getenv w "MEMCACHEDCLOUD_USERNAME")
                    EmptyString)
            && negb (String.eqb (boot.os_Getenv w "MEMCACHEDCLOUD_PASSWORD")
                       EmptyString));
    [destruct (boot.cn_Auth w _ _) as [e|]; [reflexivity|]|];
    (destruct (boot.pgx_ParseURI w _) as [e|]; [reflexivity|]);
    (destruct (boot.pgx_NewConnPool w _) as [e|]; [reflexivity|]);
    (destruct (boot.exec_LookPath w "node") as [binary|e]; [|reflexivity]);
    (destruct (boot.cmd_Start w _) as [e|]; [reflexivity|]);
    (destruct (boot.cmd_Wait w _) as [[[|[|n]] e]|]; simpl Nat.eqb; cbv iota;
       try reflexivity);
    rewrite getEnv_run; try reflexivity;
    destruct (boot.http_ListenAndServe w _); reflexivity.
Qed.

(** X15. [getEnv] makes no call and never fails; a variable that is set to
    the empty string counts as unset, so with a default that is not empty the
    result is never empty. *)
Theorem getEnv_falls_back_on_empty (key def : string) (w : boot.World) :
  ∃ v, getEnv key def w = ([], inr v)
       ∧ (boot.os_Getenv w key ≠ EmptyString → v = boot.os_Getenv w key)
       ∧ (boot.os_Getenv w key = EmptyString → v = def)
       ∧ (def ≠ EmptyString → v ≠ EmptyString).
Proof.
  exists (envOr w key def). split; [apply getEnv_run|]. unfold envOr.
  destruct (String.eqb_spec (boot.os_Getenv w key) EmptyString) as [E|E];
    repeat split; intros; congruence.
Qed.

Lemma getEnv_falls_back_on_empty_witness :
  getEnv "PORT" "3000" (healthyBoot exampleEnv []) = ([], inr "3000").
Proof.
  destruct (getEnv_falls_back_on_empty "PORT" "3000" (healthyBoot exampleEnv []))
    as (v & Hrun & _ & Hdef & _).
  rewrite Hrun, (Hdef eq_refl). reflexivity.
Defined.

Lemma authError_Some (w : boot.World) (e : string) :
  authError w = Some e →
  authEvents w = [boot.Auth (boot.os_Getenv w "MEMCACHEDCLOUD_USERNAME")
                            (boot.os_Getenv w "MEMCACHEDCLOUD_PASSWORD")]
  ∧ boot.cn_Auth w (boot.os_Getenv w "MEMCACHEDCLOUD_USERNAME")
                   (boot.os_Getenv w "MEMCACHEDCLOUD_PASSWORD") = Some e.
Proof.
  unfold authError, authEvents. destruct (authWanted w); [auto | discriminate].
Qed.

(** Splits a membership in an explicit trace into its cases. *)
Ltac trace_cases H :=
  repeat first
    [ apply elem_of_app in H as [H|H]
    | apply elem_of_cons in H as [H|H]
    | apply elem_of_nil in H; destruct H ].

Lemma authEvents_elem (w : boot.World) (ev : boot.Event) :
  ev ∈ authEvents w →
  authWanted w = true
  ∧ ev = boot.Auth (boot.os_Getenv w "MEMCACHEDCLOUD_USERNAME")
                   (boot.os_Getenv w "MEMCACHEDCLOUD_PASSWORD").
Proof.
  unfold authEvents. destruct (authWanted w); intros H.
  - apply list_elem_of_singleton in H. auto.
  - apply elem_of_nil in H. destruct H.
Qed.

Lemma authWanted_true (w : boot.World) :
  authWanted w = true
  ↔ boot.os_Getenv w "MEMCACHEDCLOUD_USERNAME" ≠ EmptyString
    ∧ boot.os_Getenv w "MEMCACHEDCLOUD_PASSWORD" ≠ EmptyString.
Proof.
  unfold authWanted.
  rewrite andb_true_iff, !negb_true_iff, !String.eqb_neq. reflexivity.
Qed.

(** Takes the cases of a run of [main]. *)
Ltac main_cases w :=
  rewrite (main_run w); cbv zeta;
  destruct (boot.mc_Dial w "tcp" _) as [?e|] eqn:Hdial;
  [| destruct (authError w) as [?e|] eqn:Hauth;
     [| destruct (boot.pgx_ParseURI w _) as [?e|] eqn:Hparse;
        [| destruct (boot.pgx_NewConnPool w _) as [?e|] eqn:Hpool;
           [| destruct (boot.exec_LookPath w "node") as [binary|?e] eqn:Hlook;
              [ destruct (boot.cmd_Start w _) as [?e|] eqn:Hstart;
                [| destruct (boot.cmd_Wait w _) as [[[|[|?n]] ?e]|] eqn:Hwait;
                   [ | | | destruct (boot.http_ListenAndServe w _) as [?err|]
                               eqn:Hserve ] ]
              | ] ] ] ] ].

Lemma setupTrace_last (w : boot.World) (binary : string) :
  last (setupTrace w binary) = Some (boot.Start (nodeCmd w binary)).
Proof.
  unfold setupTrace.
  change [boot.ParseURI (boot.os_Getenv w "DATABASE_URL");
          boot.NewConnPool (poolConfig w); boot.LookPath "node";
          boot.Start (nodeCmd w binary)]
    with ([boot.ParseURI (boot.os_Getenv w "DATABASE_URL");
           boot.NewConnPool (poolConfig w); boot.LookPath "node"]
          ++ [boot.Start (nodeCmd w binary)]).
  rewrite !app_assoc. apply last_snoc.
Qed.

Lemma fullBootTrace_setup (w : boot.World) (binary : string) :
  fullBootTrace w binary
  = (setupTrace w binary
     ++ [boot.Println ["Starting web server at port"; envOr w "PORT" "3000"]])
    ++ [boot.ListenAndServe (":" +:+ envOr w "PORT" "3000")].
Proof.
  unfold fullBootTrace, setupTrace. rewrite <- !app_assoc. reflexivity.
Qed.

Lemma fullBootTrace_last (w : boot.World) (binary : string) :
  last (fullBootTrace w binary)
  = Some (boot.ListenAndServe (":" +:+ envOr w "PORT" "3000")).
Proof. rewrite fullBootTrace_setup. apply last_snoc. Qed.

Lemma setupTrace_Start (w : boot.World) (binary : string) (cmd : exec.Cmd) :
  boot.Start cmd ∈ setupTrace w binary ↔ cmd = nodeCmd w binary.
Proof.
  unfold setupTrace. split.
  - intros H. trace_cases H; try discriminate H;
      try (apply authEvents_elem in H as [_ H]; discriminate H).
    injection H as ->. reflexivity.
  - intros ->. rewrite !elem_of_app, !elem_of_cons. auto 10.
Qed.

Lemma fullBootTrace_Start (w : boot.World) (binary : string) (cmd : exec.Cmd) :
  boot.Start cmd ∈ fullBootTrace w binary ↔ cmd = nodeCmd w binary.
Proof.
  rewrite fullBootTrace_setup, !elem_of_app, setupTrace_Start,
    !list_elem_of_singleton.
  split; [intros [[H|H]|H]; (exact H || discriminate H) | auto].
Qed.

(** X16. [main] returns only by [log.Fatal], and where a run ends tells why.
    A run that ends at one of the calls up to the start of the node
    application ends because that call failed, with the error of the call
    behind the text of its step, and nothing is attempted after it.  Once the
    node application is started, a run ends with "Node process failed" when
    the node process fails, wherever [main] then is, or with the error of the
    server when that stops first; otherwise the process goes on serving. *)
Theorem main_ends_only_by_a_failure (w : boot.World) :
  ∃ trace outcome,
    main w = (trace, outcome)
    ∧ match outcome with
      | inl msg =>
          match last trace with
          | Some (boot.Dial network addr) =>
              ∃ e, boot.mc_Dial w network addr = Some e
                   ∧ msg = "Memcached connection error: " +:+ e
          | Some (boot.Auth user pass) =>
              ∃ e, boot.cn_Auth w user pass = Some e
                   ∧ msg = "Memcached auth error: " +:+ e
          | Some (boot.ParseURI uri) =>
              ∃ e, boot.pgx_ParseURI w uri = Some e
                   ∧ msg = "Parse URI error: " +:+ e
          | Some (boot.NewConnPool config) =>
              ∃ e, boot.pgx_NewConnPool w config = Some e
                   ∧ msg = "Connection error: " +:+ e
          | Some (boot.LookPath file) =>
              ∃ e, boot.exec_LookPath w file = inr e
                   ∧ msg = "Could not lookup node path: " +:+ e
          | Some (boot.Start cmd) =>
              (∃ e, boot.cmd_Start w cmd = Some e
                    ∧ msg = "Could not start node: " +:+ e)
              ∨ (boot.cmd_Start w cmd = None
                 ∧ ∃ e, boot.cmd_Wait w cmd = Some (0%nat, e)
                        ∧ msg = "Node process failed: " +:+ e)
          | Some (boot.Println _) =>
              ∃ cmd e, boot.Start cmd ∈ trace
                       ∧ boot.cmd_Start w cmd = None
                       ∧ boot.cmd_Wait w cmd = Some (1%nat, e)
                       ∧ msg = "Node process failed: " +:+ e
          | Some (boot.ListenAndServe addr) =>
              (∃ cmd n e, boot.Start cmd ∈ trace
                          ∧ boot.cmd_Start w cmd = None
                          ∧ boot.cmd_Wait w cmd = Some (n, e) ∧ (2 ≤ n)%nat
                          ∧ msg = "Node process failed: " +:+ e)
              ∨ (boot.http_ListenAndServe w addr = Some msg
                 ∧ ∀ cmd, boot.Start cmd ∈ trace → boot.cmd_Wait w cmd = None)
          | None => False
          end
      | inr _ =>
          ∃ addr, last trace = Some (boot.ListenAndServe addr)
                  ∧ boot.http_ListenAndServe w addr = None
                  ∧ ∀ cmd, boot.Start cmd ∈ trace → boot.cmd_Wait w cmd = None
      end.
Proof.
  main_cases w; eexists _, _; (split; [reflexivity|]).
  - simpl. eauto.
  - destruct (authError_Some w e Hauth) as [-> Hcall]. simpl. eauto.
  - rewrite !app_assoc, last_snoc. eauto.
  - change [boot.ParseURI (boot.os_Getenv w "DATABASE_URL");
            boot.NewConnPool (poolConfig w)]
      with ([boot.ParseURI (boot.os_Getenv w "DATABASE_URL")]
            ++ [boot.NewConnPool (poolConfig w)]).
    rewrite !app_assoc, last_snoc. eauto.
  - rewrite setupTrace_last. left. eauto.
  - rewrite setupTrace_last. right. eauto.
  - rewrite last_snoc. exists (nodeCmd w binary), e.
    rewrite elem_of_app, setupTrace_Start. auto.
  - rewrite fullBootTrace_last. left.
    exists (nodeCmd w binary), (S (S n)), e.
    rewrite fullBootTrace_Start. repeat split; auto. lia.
  - rewrite fullBootTrace_last. right. split; [exact Hserve|].
    intros cmd Hcmd. apply fullBootTrace_Start in Hcmd as ->. exact Hwait.
  - eexists. split; [apply fullBootTrace_last|]. split; [exact Hserve|].
    intros cmd Hcmd. apply fullBootTrace_Start in Hcmd as ->. exact Hwait.
  - change [boot.ParseURI (boot.os_Getenv w "DATABASE_URL");
            boot.NewConnPool (poolConfig w); boot.LookPath "node"]
      with ([boot.ParseURI (boot.os_Getenv w "DATABASE_URL");
             boot.NewConnPool (poolConfig w)] ++ [boot.LookPath "node"]).
    rewrite !app_assoc, last_snoc. eauto.
Qed.

(** Two runs with a node process that fails: at once, which ends the process
    before the server is announced, and while the server runs. *)
Lemma main_node_fails_at_once :
  let w := nodeFailureBoot exampleEnv ["HOME=/app"] 0 "exit status 1" in
  main w
  = (setupTrace w "/usr/bin/node", inl "Node process failed: exit status 1").
Proof. reflexivity. Qed.

Lemma main_node_fails_while_serving :
  let w := nodeFailureBoot exampleEnv ["HOME=/app"] 2 "exit status 1" in
  main w
  = (fullBootTrace w "/usr/bin/node",
     inl "Node process failed: exit status 1").
Proof. reflexivity. Qed.

(** The events of a run, whatever its end, are events of the full trace. *)
Lemma main_trace_elem (w : boot.World) (ev : boot.Event) :
  ev ∈ fst (main w) →
  ev = boot.Dial "tcp" (envOr w "MEMCACHEDCLOUD_SERVERS" "localhost:11211")
  ∨ ev ∈ authEvents w
  ∨ ev = boot.ParseURI (boot.os_Getenv w "DATABASE_URL")
  ∨ ev = boot.NewConnPool (poolConfig w)
  ∨ ev = boot.LookPath "node"
  ∨ (∃ binary, boot.exec_LookPath w "node" = inl binary
               ∧ (ev = boot.Start (nodeCmd w binary)
                  ∨ (boot.cmd_Start w (nodeCmd w binary) = None
                     ∧ (ev = boot.Println ["Starting web server at port";
                                           envOr w "PORT" "3000"]
                        ∨ ev = boot.ListenAndServe
                                 (":" +:+ envOr w "PORT" "3000"))))).
Proof.
  main_cases w; unfold fullBootTrace, setupTrace; simpl; intros H;
    trace_cases H; subst; eauto 12.
Qed.

Lemma main_trace_dial_failed (w : boot.World) (ev : boot.Event) (e : string) :
  boot.mc_Dial w "tcp" (envOr w "MEMCACHEDCLOUD_SERVERS" "localhost:11211")
  = Some e →
  ev ∈ fst (main w) →
  ev = boot.Dial "tcp" (envOr w "MEMCACHEDCLOUD_SERVERS" "localhost:11211").
Proof.
  intros Hd. rewrite main_run. cbv zeta. rewrite Hd. simpl.
  intros H. apply list_elem_of_singleton in H. exact H.
Qed.

Lemma main_trace_auth (w : boot.World) (ev : boot.Event) :
  boot.mc_Dial w "tcp" (envOr w "MEMCACHEDCLOUD_SERVERS" "localhost:11211")
  = None →
  ev ∈ authEvents w → ev ∈ fst (main w).
Proof.
  intros Hd Hin. revert Hd.
  main_cases w; intros Hd; try discriminate Hd;
    unfold fullBootTrace, setupTrace; simpl;
    rewrite ?elem_of_cons, ?elem_of_app; auto 10.
Qed.

(** X17. [main] authenticates to memcached exactly when the connection was
    made and both MEMCACHEDCLOUD_USERNAME and MEMCACHEDCLOUD_PASSWORD are set
    and not empty, and then with these two values; with only one of them set
    it goes on without authentication. *)
Theorem main_authenticates_iff_both_credentials (w : boot.World)
    (user pass : string) :
  boot.Auth user pass ∈ fst (main w)
  ↔ boot.mc_Dial w "tcp" (envOr w "MEMCACHEDCLOUD_SERVERS" "localhost:11211")
    = None
    ∧ user = boot.os_Getenv w "MEMCACHEDCLOUD_USERNAME"
    ∧ pass = boot.os_Getenv w "MEMCACHEDCLOUD_PASSWORD"
    ∧ user ≠ EmptyString ∧ pass ≠ EmptyString.
Proof.
  split.
  - intros H.
    destruct (boot.mc_Dial w "tcp"
                (envOr w "MEMCACHEDCLOUD_SERVERS" "localhost:11211"))
      as [e|] eqn:Hdial.
    { apply (main_trace_dial_failed w _ e Hdial) in H. discriminate H. }
    apply main_trace_elem in H
      as [H|[H|[H|[H|[H|(binary & _ & [H|(_ & [H|H])])]]]]];
      try discriminate H.
    apply authEvents_elem in H as [Hw [= -> ->]].
    apply authWanted_true in Hw. tauto.
  - intros (Hdial & -> & -> & Hu & Hp).
    apply (main_trace_auth w _ Hdial).
    unfold authEvents. rewrite (proj2 (authWanted_true w) (conj Hu Hp)).
    apply list_elem_of_singleton. reflexivity.
Qed.

Lemma main_authenticates_iff_both_credentials_witness :
  boot.Auth "bower" "secret"
  ∈ fst (main (healthyBoot
                 (fun key =>
                    if String.eqb key "MEMCACHEDCLOUD_USERNAME" then "bower"
                    else if String.eqb key "MEMCACHEDCLOUD_PASSWORD" then "secret"
                    else EmptyString) [])).
Proof.
  apply (main_authenticates_iff_both_credentials
           (healthyBoot
              (fun key =>
                 if String.eqb key "MEMCACHEDCLOUD_USERNAME" then "bower"
                 else if String.eqb key "MEMCACHEDCLOUD_PASSWORD" then "secret"
                 else EmptyString) [])
           "bower" "secret").
  repeat split; discriminate.
Defined.

Lemma envOr_not_empty (w : boot.World) (key def : string) :
  def ≠ EmptyString → envOr w key def ≠ EmptyString.
Proof.
  unfold envOr. intros Hd.
  destruct (String.eqb_spec (boot.os_Getenv w key) EmptyString); congruence.
Qed.

(** X18. [main] starts to listen only after the whole setup, and exactly when
    every step before succeeds and the node process has not failed by then:
    the calls of [main] are then the full sequence (dial, authentication if
    wanted, URI, pool, node look-up, node start, the log line, listen), each
    once and in this order.  The address is ":" followed by PORT, or by
    "3000" when PORT is unset or empty; it is never ":" alone. *)
Theorem main_listens_after_full_setup (w : boot.World) (addr : string) :
  boot.ListenAndServe addr ∈ fst (main w)
  ↔ addr = ":" +:+ envOr w "PORT" "3000"
    ∧ boot.mc_Dial w "tcp" (envOr w "MEMCACHEDCLOUD_SERVERS" "localhost:11211")
      = None
    ∧ authError w = None
    ∧ boot.pgx_ParseURI w (boot.os_Getenv w "DATABASE_URL") = None
    ∧ boot.pgx_NewConnPool w (poolConfig w) = None
    ∧ ∃ binary,
        boot.exec_LookPath w "node" = inl binary
        ∧ boot.cmd_Start w (nodeCmd w binary) = None
        ∧ (∀ n e, boot.cmd_Wait w (nodeCmd w binary) = Some (n, e) →
                  (2 ≤ n)%nat)
        ∧ fst (main w) = fullBootTrace w binary
        ∧ addr ≠ ":".
Proof.
  assert (Hport : ":" +:+ envOr w "PORT" "3000" ≠ ":").
  { pose proof (envOr_not_empty w "PORT" "3000") as Hne.
    destruct (envOr w "PORT" "3000");
      [exfalso; apply Hne; [discriminate|reflexivity]|].
    discriminate. }
  split.
  - main_cases w; intros H; unfold fullBootTrace, setupTrace in H;
      simpl in H; trace_cases H; try discriminate H;
      try (apply authEvents_elem in H as [_ H]; discriminate H);
      injection H as ->;
      (split; [reflexivity|]); do 4 (split; [reflexivity|]);
      exists binary; (split; [reflexivity|]); (split; [exact Hstart|]);
      (split; [|split; [reflexivity|exact Hport]]);
      intros n' e' Hn'; rewrite Hwait in Hn'; inversion Hn'; lia.
  - intros (-> & Hdial & Hauth & Hparse & Hpool & binary & Hlook & Hstart
            & Hwait & _ & _).
    rewrite main_run. cbv zeta.
    rewrite Hdial, Hauth, Hparse, Hpool, Hlook, Hstart.
    destruct (boot.cmd_Wait w (nodeCmd w binary)) as [[[|[|n]] e]|] eqn:Hw;
      try (specialize (Hwait _ _ eq_refl); lia);
      simpl; rewrite fullBootTrace_setup, !elem_of_app,
        !list_elem_of_singleton; auto.
Qed.

Lemma main_listens_after_full_setup_witness :
  boot.ListenAndServe ":3000" ∈ fst (main (healthyBoot exampleEnv ["HOME=/app"])).
Proof.
  apply (main_listens_after_full_setup
           (healthyBoot exampleEnv ["HOME=/app"]) ":3000").
  repeat split. exists "/usr/bin/node".
  repeat split; discriminate.
Defined.

(** X19. The statement [getPackage] executes is one that startup prepares:
    whenever [main] creates the pool, its [AfterConnect] prepares, on each of
    at most 20 connections, a statement under the very name every store query
    of the handlers uses, and that statement selects name and url by name. *)
Theorem lookup_statement_is_prepared (bw : boot.World)
    (config : pgxpool.ConnPoolConfig) (r : http.Request) (w : World)
    (stmt arg : string) :
  boot.NewConnPool config ∈ fst (main bw) →
  EvQueryRow stmt arg ∈ traceOf (serve r w) →
  (stmt, "SELECT name, url FROM packages WHERE name = $1")
  ∈ pgxpool.AfterConnect config
  ∧ pgxpool.MaxConnections config = 20
  ∧ pgxpool.URI (pgxpool.ConnConfig_ config) = boot.os_Getenv bw "DATABASE_URL".
Proof.
  intros Hpool Hquery.
  assert (stmt = "getPackage") as ->.
  { revert Hquery. serve_cases r w; rewrite Hserve; unfold traceOf; simpl;
      rewrite ?elem_of_nil, ?list_elem_of_singleton; intros H;
      first [contradiction | congruence]. }
  apply main_trace_elem in Hpool
    as [H|[H|[H|[H|[H|(binary & _ & [H|(_ & [H|H])])]]]]];
    try discriminate H;
    try (apply authEvents_elem in H as [_ H]; discriminate H).
  injection H as ->. simpl. split; [|auto].
  apply list_elem_of_singleton. reflexivity.
Qed.

Lemma lookup_statement_is_prepared_witness :
  ("getPackage", "SELECT name, url FROM packages WHERE name = $1")
  ∈ pgxpool.AfterConnect (poolConfig (healthyBoot exampleEnv [])).
Proof.
  apply (lookup_statement_is_prepared (healthyBoot exampleEnv [])
           (poolConfig (healthyBoot exampleEnv []))
           (request "GET" "registry.bower.io" "/packages/jquery" EmptyString)
           exampleWorld "getPackage" "jquery").
  - apply list_elem_of_In. vm_compute. auto.
  - apply list_elem_of_In. vm_compute. auto.
Defined.

(** ** The entry of the proxy *)

Lemma serve_returns_request (r : http.Request) (w : World) :
  fst (snd (serve r w)) = r.
Proof. serve_cases r w; rewrite Hserve; reflexivity. Qed.

(** What becomes of a request that went through the handlers, when an
    unanswered one goes to the given target. *)
Lemma ServeHTTP_absolute (fuel : nat) (rq : Inbound) (w : World) :
  http.Method (Req rq) ≠ "CONNECT" → URL_Scheme rq ≠ EmptyString →
  ServeHTTP (S fuel) rq w
  = (traceOf (serve (Req rq) w),
     match responseOf (serve (Req rq) w) with
     | Some resp => Answered resp
     | None => Forwarded (URL_Scheme rq) (URL_Host rq) (Req rq)
     end).
Proof.
  intros Hm Hs. simpl.
  rewrite (proj2 (String.eqb_neq _ _) Hm), (proj2 (String.eqb_neq _ _) Hs).
  run. fold (serve (Req rq)).
  pose proof (serve_returns_request (Req rq) w) as Hreq.
  unfold traceOf, responseOf.
  destruct (serve (Req rq) w) as [t [req [resp|]]]; simpl in *; subst;
    rewrite app_nil_r; reflexivity.
Qed.

Lemma nonProxy_forwards_to_node (fuel : nat) (rq : Inbound)
    (w : World) :
  http.Method (Req rq) ≠ "CONNECT" →
  nonProxy (S fuel) rq w
  = (traceOf (serve (Req rq) w),
     match responseOf (serve (Req rq) w) with
     | Some resp => Answered resp
     | None => Forwarded "http" "localhost:3001" (Req rq)
     end).
Proof.
  intros Hm. unfold nonProxy, nonProxyWith.
  rewrite ServeHTTP_absolute by (simpl; (exact Hm || discriminate)).
  reflexivity.
Qed.

(** X20. [nonProxy] does not touch what the rules look at: for a request that
    is not a CONNECT the handlers run once, on the method, Host, path and
    query that came in, with the calls and the answer of [serve]; and a
    request no handler answers is sent to http://localhost:3001, whatever its
    URL said before. *)
Theorem nonProxy_runs_rules_then_forwards_to_node (fuel : nat) (rq : Inbound)
    (w : World) :
  http.Method (Req rq) ≠ "CONNECT" →
  nonProxy (S fuel) rq w
  = (traceOf (serve (Req rq) w),
     match responseOf (serve (Req rq) w) with
     | Some resp => Answered resp
     | None => Forwarded "http" "localhost:3001" (Req rq)
     end).
Proof.
  apply nonProxy_forwards_to_node.
Qed.

Lemma nonProxy_runs_rules_then_forwards_to_node_witness :
  nonProxy 1 (mkInbound (request "POST" "registry.bower.io" "/packages"
                           EmptyString) EmptyString EmptyString) exampleWorld
  = ([], Forwarded "http" "localhost:3001"
           (request "POST" "registry.bower.io" "/packages" EmptyString)).
Proof.
  rewrite (nonProxy_runs_rules_then_forwards_to_node 0
             (mkInbound (request "POST" "registry.bower.io" "/packages"
                           EmptyString) EmptyString EmptyString) exampleWorld)
    by discriminate.
  reflexivity.
Defined.

(** X21. The proxy and [nonProxy] call each other without a loop: a request
    enters [nonProxy] at most once, since [nonProxy] makes its URL absolute;
    two rounds always end, and more rounds change nothing.  Either way the
    handlers run once.  A request whose URL is already absolute does not go
    through [nonProxy]: when no handler answers it, it is sent to its own
    URL, not to the node application. *)
Theorem ServeHTTP_enters_nonProxy_at_most_once (fuel : nat) (rq : Inbound)
    (w : World) :
  ServeHTTP (2 + fuel) rq w = ServeHTTP 2 rq w
  ∧ snd (ServeHTTP 2 rq w) ≠ Exhausted
  ∧ (http.Method (Req rq) ≠ "CONNECT" →
     ServeHTTP 2 rq w
     = (traceOf (serve (Req rq) w),
        match responseOf (serve (Req rq) w) with
        | Some resp => Answered resp
        | None =>
            if String.eqb (URL_Scheme rq) EmptyString
            then Forwarded "http" "localhost:3001" (Req rq)
            else Forwarded (URL_Scheme rq) (URL_Host rq) (Req rq)
        end)).
Proof.
  destruct (String.eqb_spec (http.Method (Req rq)) "CONNECT") as [Hm|Hm].
  { simpl. rewrite (proj2 (String.eqb_eq _ _) Hm). simpl.
    repeat split; try discriminate; intros; congruence. }
  destruct (String.eqb_spec (URL_Scheme rq) EmptyString) as [Hs|Hs].
  - assert (Hstep : ∀ n, ServeHTTP (S (S n)) rq w = nonProxy (S n) rq w).
    { intros n.
      change (ServeHTTP (S (S n)) rq w)
        with ((if String.eqb (http.Method (Req rq)) "CONNECT"
               then mret Tunnelled
               else if String.eqb (URL_Scheme rq) EmptyString
                    then nonProxy (S n) rq
                    else '(req, resp) ← goproxy.filterRequest proxy (Req rq);
                         match resp with
                         | Some resp => mret (Answered resp)
                         | None =>
                             mret (Forwarded (URL_Scheme rq) (URL_Host rq) req)
                         end) w).
      rewrite (proj2 (String.eqb_neq _ _) Hm), (proj2 (String.eqb_eq _ _) Hs).
      reflexivity. }
    change (2 + fuel)%nat with (S (S fuel)).
    rewrite !Hstep, !nonProxy_forwards_to_node by exact Hm.
    split; [reflexivity|]. split; [|reflexivity].
    simpl. destruct (responseOf (serve (Req rq) w)); discriminate.
  - change (2 + fuel)%nat with (S (S fuel)).
    rewrite !ServeHTTP_absolute by assumption.
    split; [reflexivity|]. split; [|reflexivity].
    simpl. destruct (responseOf (serve (Req rq) w)); discriminate.
Qed.

Lemma ServeHTTP_enters_nonProxy_at_most_once_witness :
  ServeHTTP 2 (mkInbound (request "POST" "example.org" "/upload" EmptyString)
                 "http" "example.org") exampleWorld
  = ([], Forwarded "http" "example.org"
           (request "POST" "example.org" "/upload" EmptyString)).
Proof.
  destruct (ServeHTTP_enters_nonProxy_at_most_once 0
              (mkInbound (request "POST" "example.org" "/upload" EmptyString)
                 "http" "example.org") exampleWorld) as (_ & _ & H).
  rewrite H by discriminate. reflexivity.
Defined.

(** X22. The node application is started on the port the delegation targets:
    the command [main] starts is the node binary it looked up with the
    arguments --expose_gc index.js, its environment is the environment of the
    process followed by PORT=3001 as last entry, and every request [nonProxy]
    sends on goes to localhost on that very port. *)
Theorem node_port_is_the_delegate_port (bw : boot.World) (cmd : exec.Cmd) :
  boot.Start cmd ∈ fst (main bw) →
  boot.exec_LookPath bw "node" = inl (exec.Path cmd)
  ∧ exec.Args cmd = [exec.Path cmd; "--expose_gc"; "index.js"]
  ∧ boot.os_Environ bw `prefix_of` exec.Env cmd
  ∧ ∃ port,
      last (exec.Env cmd) = Some ("PORT=" +:+ port)
      ∧ ∀ fuel rq w scheme authority req,
          snd (nonProxy (S fuel) rq w) = Forwarded scheme authority req →
          scheme = "http" ∧ authority = "localhost:" +:+ port.
Proof.
  intros Hstart.
  apply main_trace_elem in Hstart
    as [H|[H|[H|[H|[H|(binary & Hlook & [H|(_ & [H|H])])]]]]];
    try discriminate H;
    try (apply authEvents_elem in H as [_ H]; discriminate H).
  injection H as ->. simpl.
  split; [exact Hlook|]. split; [reflexivity|].
  split; [apply prefix_app_r; reflexivity|].
  exists "3001". split; [apply last_snoc|].
  intros fuel rq w scheme authority req.
  destruct (String.eqb_spec (http.Method (Req rq)) "CONNECT") as [Hm|Hm].
  - unfold nonProxy, nonProxyWith. simpl.
    rewrite (proj2 (String.eqb_eq _ _) Hm). discriminate.
  - rewrite nonProxy_forwards_to_node by exact Hm. simpl.
    destruct (responseOf (serve (Req rq) w)); [discriminate|].
    intros [= <- <- _]. split; reflexivity.
Qed.

Lemma node_port_is_the_delegate_port_witness :
  ∃ port,
    last (exec.Env (nodeCmd (healthyBoot exampleEnv ["PORT=5000"])
                      "/usr/bin/node"))
    = Some ("PORT=" +:+ port).
Proof.
  destruct (node_port_is_the_delegate_port
              (healthyBoot exampleEnv ["PORT=5000"])
              (nodeCmd (healthyBoot exampleEnv ["PORT=5000"]) "/usr/bin/node"))
    as (_ & _ & _ & port & Hlast & _).
  - apply list_elem_of_In. vm_compute. auto 10.
  - exists port. exact Hlast.
Defined.
